(** * Embed / cache / classify notebooks: a shallow embedding

    The development follows three notebooks of the repository:

    - [Obtain_dataset] (loading the fine-food reviews, building the
      [combined] column, subsampling, requesting embeddings, [to_csv]);
    - [Classification_using_embeddings] (reading the persisted table and
      handing it to the classification library);
    - [Multiclass_classification_for_transactions] ([request_completion],
      [classify_transaction], [check_finetune_classes], the transaction
      [combined] column and its embeddings).

    Python values are modelled as the code has them: [str] is a sequence of
    Unicode code points, a DataFrame is an ordered list of labelled rows, a
    row maps column names to cells.  Everything the notebooks delegate to a
    library or to a remote service (tokenizer, embedding and completion
    endpoints, sorting ties, the text rendering of a Series, the classifier)
    is a parameter of the section that uses it. *)

From Stdlib Require Import String Ascii.
From Stdlib Require Import List ZArith NArith QArith Arith Lia Bool.
From Stdlib Require Import Permutation Sorting.Sorted.
From Stdlib Require DecimalString DecimalPos DecimalZ.
From Equations Require Import Equations.
Import ListNotations.
Open Scope string_scope.
Open Scope list_scope.

Set Warnings "-register-all".

(* ===================================================================== *)
(** ** Python strings *)
(* ===================================================================== *)

Module PyStr.

(** A Python [str] is a sequence of code points. *)
Definition char := N.
Definition str := list char.

(** ASCII literals of the source text. *)
Definition lit (s : string) : str := map N_of_ascii (list_ascii_of_string s).

(** [str.isspace] on one code point (the code points whose bidirectional
    class is WS, B or S, or whose category is Zs). *)
Definition isspace (c : char) : bool :=
  (((9 <=? c) && (c <=? 13)) || ((28 <=? c) && (c <=? 32))
   || (c =? 133) || (c =? 160) || (c =? 5760)
   || ((8192 <=? c) && (c <=? 8202))
   || (c =? 8232) || (c =? 8233) || (c =? 8239) || (c =? 8287)
   || (c =? 12288))%N.

Fixpoint lstrip (s : str) : str :=
  match s with
  | [] => []
  | c :: s' => if isspace c then lstrip s' else s
  end.

Definition rstrip (s : str) : str := rev (lstrip (rev s)).

(** [s.strip()] *)
Definition strip (s : str) : str := rstrip (lstrip s).

(** [s.startswith(p)] *)
Fixpoint startswith (p s : str) : bool :=
  match p, s with
  | [], _ => true
  | _ :: _, [] => false
  | a :: p', b :: s' => N.eqb a b && startswith p' s'
  end.

(** [old in s] *)
Fixpoint contains (old s : str) : bool :=
  startswith old s ||
  match s with
  | [] => false
  | _ :: s' => contains old s'
  end.

(** [s.replace(old, new)]: left to right, every non-overlapping occurrence.
    With an empty [old], Python inserts [new] before every code point and at
    the end. *)
Equations? replace (old new s : str) : str by wf (length s) lt :=
  replace [] new s := new ++ flat_map (fun c => c :: new) s;
  replace (o :: old') new [] := [];
  replace (o :: old') new (c :: s') with startswith (o :: old') (c :: s') => {
    | true := new ++ replace (o :: old') new (skipn (length old') s');
    | false := c :: replace (o :: old') new s' }.
Proof.
  all: simpl; try rewrite length_skipn; lia.
Qed.

(** [str(n)] for a Python [int]. *)
Definition str_int (z : Z) : str :=
  lit (DecimalString.NilZero.string_of_int (Z.to_int z)).

(** [sep.join(parts)] *)
Fixpoint join (sep : str) (parts : list str) : str :=
  match parts with
  | [] => []
  | [p] => p
  | p :: ps => p ++ sep ++ join sep ps
  end.

End PyStr.
Import PyStr.


(* ===================================================================== *)
(** ** Exceptions *)
(* ===================================================================== *)

(** What a Python call can raise.  [ServiceError] and [LibraryError] stand
    for whatever a remote endpoint or the classification library raises;
    the notebooks never inspect an exception. *)
Inductive exn : Type :=
| KeyError (key : string)
| AttributeError (name : string)
| IndexError
| TypeError
| FileNotFoundError (path : string)
| ParserError
| ServiceError (code : N)
| LibraryError (code : N).

Inductive result (A : Type) : Type :=
| Ok (a : A)
| Raise (e : exn).
Arguments Ok {A} a.
Arguments Raise {A} e.

Definition bindR {A B} (c : result A) (k : A -> result B) : result B :=
  match c with
  | Ok a => k a
  | Raise e => Raise e
  end.

Declare Scope py_scope.
Delimit Scope py_scope with py.
Open Scope py_scope.

Notation "'let?' x ':=' c 'in' k" := (bindR c (fun x => k))
  (at level 10, x name, c at level 100, k at level 200) : py_scope.

(* ===================================================================== *)
(** ** pandas: cells, rows, frames, Series *)
(* ===================================================================== *)

Module Pandas.

(** A float is kept as its IEEE-754 binary64 bit pattern: the notebooks
    store and print embedding coordinates, they never compute with them. *)
Definition float := Z.

Inductive cell : Type :=
| NaN
| Int (z : Z)
| Str (s : str)
| Vec (v : list float).

Definition isna (c : cell) : bool :=
  match c with NaN => true | _ => false end.

(** A row maps column names to cells, in column order; a column the row
    does not hold reads as missing ([NaN]). *)
Definition row := list (string * cell).

Fixpoint lookup (c : string) (r : row) : option cell :=
  match r with
  | [] => None
  | (k, v) :: r' => if String.eqb c k then Some v else lookup c r'
  end.

Definition at_ (c : string) (r : row) : cell :=
  match lookup c r with Some v => v | None => NaN end.

(** [row[c] = v]: overwrite in place, or append a new column at the end. *)
Fixpoint set (c : string) (v : cell) (r : row) : row :=
  match r with
  | [] => [(c, v)]
  | (k, w) :: r' => if String.eqb c k then (k, v) :: r' else (k, w) :: set c v r'
  end.

Definition del (c : string) (r : row) : row :=
  filter (fun kv => negb (String.eqb c (fst kv))) r.

(** A DataFrame: its column labels, and its rows under their index labels. *)
Record frame : Type := mkFrame {
  columns : list string;
  rows : list (Z * row)
}.

(** A Series: values under the index labels of the frame it comes from. *)
Definition series (A : Type) := list (Z * A).

Definition has_column (c : string) (df : frame) : bool :=
  existsb (String.eqb c) (columns df).

(** [len(df)] *)
Definition len (df : frame) : nat := length (rows df).

(** The values of column [c] under the frame's index. *)
Definition column (c : string) (df : frame) : series cell :=
  map (fun ir => (fst ir, at_ c (snd ir))) (rows df).

Definition complete (cs : list string) (r : row) : bool :=
  forallb (fun c => negb (isna (at_ c r))) cs.

(** [df[c]] *)
Definition getitem (c : string) (df : frame) : result (series cell) :=
  if has_column c df then Ok (column c df) else Raise (KeyError c).

(** [df.c] *)
Definition getattr (c : string) (df : frame) : result (series cell) :=
  if has_column c df then Ok (column c df) else Raise (AttributeError c).

(** The row restricted to the columns [cs], in that order. *)
Definition project (cs : list string) (r : row) : row :=
  map (fun c => (c, at_ c r)) cs.

(** [df[[c1, ..., cn]]] *)
Definition select (cs : list string) (df : frame) : result frame :=
  match find (fun c => negb (has_column c df)) cs with
  | Some c => Raise (KeyError c)
  | None =>
      Ok {| columns := cs;
            rows := map (fun ir => (fst ir, project cs (snd ir))) (rows df) |}
  end.

(** [df.dropna()]: keep the rows with no missing value in any column. *)
Definition dropna (df : frame) : frame :=
  {| columns := columns df;
     rows := filter (fun ir => complete (columns df) (snd ir)) (rows df) |}.

(** [df[c] = s] for a Series [s] that carries the frame's own index: the
    values land row by row; a row the Series has no value for gets [NaN]. *)
Fixpoint assign (c : string) (s : series cell) (rs : list (Z * row))
  : list (Z * row) :=
  match rs with
  | [] => []
  | (i, r) :: rs' =>
      match s with
      | [] => (i, set c NaN r) :: assign c [] rs'
      | (_, v) :: s' => (i, set c v r) :: assign c s' rs'
      end
  end.

Definition setitem (c : string) (s : series cell) (df : frame) : frame :=
  {| columns := if has_column c df then columns df else columns df ++ [c];
     rows := assign c s (rows df) |}.

(** [df.drop(c, axis=1)] *)
Definition drop (c : string) (df : frame) : result frame :=
  if has_column c df
  then Ok {| columns := filter (fun k => negb (String.eqb c k)) (columns df);
             rows := map (fun ir => (fst ir, del c (snd ir))) (rows df) |}
  else Raise (KeyError c).

(** The order of [sort_values] on a column of integers: ascending, missing
    values last. *)
Definition key_le (a b : cell) : Prop :=
  match b with
  | Int y => match a with Int x => (x <= y)%Z | _ => False end
  | _ => True
  end.

Definition key_leb (a b : cell) : bool :=
  match b with
  | Int y => match a with Int x => (x <=? y)%Z | _ => false end
  | _ => true
  end.

Definition sorted_by (c : string) (rs : list (Z * row)) : Prop :=
  StronglySorted (fun a b => key_le (at_ c (snd a)) (at_ c (snd b))) rs.

(** [l[-n:]], the last [n] entries. *)
Definition last_n {A} (n : nat) (l : list A) : list A :=
  skipn (length l - n) l.

(** [df.tail(n)] *)
Definition tail (n : nat) (df : frame) : frame :=
  {| columns := columns df; rows := last_n n (rows df) |}.

(** [df.iloc[:n]] *)
Definition iloc_to (n : nat) (df : frame) : frame :=
  {| columns := columns df; rows := firstn n (rows df) |}.

(** [df[mask]] with the mask computed row by row. *)
Definition where_ (p : row -> bool) (df : frame) : frame :=
  {| columns := columns df; rows := filter (fun ir => p (snd ir)) (rows df) |}.

(** [s.apply(f)] for a pure [f]. *)
Definition apply {A B} (f : A -> B) (s : series A) : series B :=
  map (fun iv => (fst iv, f (snd iv))) s.

(** *** Text Series

    [s.str.strip()] yields, element by element, the stripped string, and a
    missing value where the element is not a string.  Concatenation keeps
    a missing value missing. *)
Definition textval := option str.

Definition str_strip (s : series cell) : series textval :=
  apply (fun c => match c with Str x => Some (strip x) | _ => None end) s.

(** ["literal" + s] *)
Definition radd (l : str) (s : series textval) : series textval :=
  apply (option_map (fun x => l ++ x)) s.

(** [s + "literal"] *)
Definition add_lit (s : series textval) (l : str) : series textval :=
  apply (option_map (fun x => x ++ l)) s.

(** [s + t] for two Series over one index: element by element. *)
Fixpoint add (s t : series textval) : series textval :=
  match s, t with
  | (i, a) :: s', (_, b) :: t' =>
      (i, match a, b with Some x, Some y => Some (x ++ y) | _, _ => None end)
      :: add s' t'
  | _, _ => []
  end.

Definition cell_of_text (t : textval) : cell :=
  match t with Some x => Str x | None => NaN end.

(** *** Files written by [to_csv]

    A delimited text file is kept as its table of fields: a header line and
    one line per row, the index label first.  Quoting is the library's. *)
Record csv : Type := mkCsv {
  header : list string;
  lines : list (list str)
}.

End Pandas.
Import Pandas.

(* ===================================================================== *)
(** ** The world a notebook runs in *)
(* ===================================================================== *)

Module Runtime.

(** Arguments of [openai.Completion.create]. *)
Record CompletionRequest : Type := mkRequest {
  prompt : str;
  temperature : Z;
  max_tokens : Z;
  top_p : Z;
  frequency_penalty : Z;
  presence_penalty : Z;
  model : string
}.

Record Choice : Type := mkChoice { text : str }.
Record CompletionResponse : Type := mkResponse { choices : list Choice }.

(** One request sent to a remote endpoint. *)
Inductive call : Type :=
| EmbeddingCall (input : str) (engine : string)
| CompletionCall (req : CompletionRequest).

Inductive file : Type :=
| CsvFile (t : csv)
| TextFile (content : list str).

(** The requests sent so far, the files on disk, what was printed. *)
Record World : Type := mkWorld {
  calls : list call;
  files : list (string * file);
  stdout : list str
}.

(** A notebook step: it returns or raises, and leaves a world behind in
    both cases. *)
Definition M (A : Type) : Type := World -> result A * World.

Definition ret {A} (a : A) : M A := fun w => (Ok a, w).

Definition bind {A B} (c : M A) (k : A -> M B) : M B :=
  fun w =>
    match c w with
    | (Ok a, w') => k a w'
    | (Raise e, w') => (Raise e, w')
    end.

Definition lift {A} (r : result A) : M A := fun w => (r, w).

Notation "x <- c ;; k" := (bind c (fun x => k))
  (at level 61, c at next level, right associativity) : py_scope.
Notation "c ;; k" := (bind c (fun _ => k))
  (at level 61, right associativity) : py_scope.

(** [for x in xs: f(x)], collecting the results; the first exception ends
    the loop. *)
Fixpoint mapM {A B} (f : A -> M B) (xs : list A) : M (list B) :=
  match xs with
  | [] => ret []
  | x :: xs' => y <- f x ;; ys <- mapM f xs' ;; ret (y :: ys)
  end.

Definition log_call (c : call) (w : World) : World :=
  {| calls := calls w ++ [c]; files := files w; stdout := stdout w |}.

Fixpoint find_file (path : string) (fs : list (string * file)) : option file :=
  match fs with
  | [] => None
  | (p, f) :: fs' => if String.eqb path p then Some f else find_file path fs'
  end.

Definition write_file (path : string) (f : file) : M unit :=
  fun w => (Ok tt, {| calls := calls w;
                      files := (path, f) :: files w;
                      stdout := stdout w |}).

Definition read_file (path : string) : M file :=
  fun w => match find_file path (files w) with
           | Some f => (Ok f, w)
           | None => (Raise (FileNotFoundError path), w)
           end.

(** [print(s)] *)
Definition print (s : str) : M unit :=
  fun w => (Ok tt, {| calls := calls w;
                      files := files w;
                      stdout := stdout w ++ [s] |}).

End Runtime.
Import Runtime.

(* ===================================================================== *)
(** ** Library calls shared by the notebooks *)
(* ===================================================================== *)

Module Lib.
Section Lib.

(** [pandas.read_csv]'s parser, with its [index_col] argument. *)
Variable parse_csv : option nat -> csv -> frame.
(** Row order chosen by [DataFrame.sort_values] (ties are the library's). *)
Variable sort_rows : string -> list (Z * row) -> list (Z * row).
(** [repr] of a float. *)
Variable repr_float : float -> str.
(** The embedding endpoint: its answer may depend on what was asked before. *)
Variable embedding_endpoint : list call -> str -> string -> result (list float).

(** [s.apply(f)] for an [f] that may raise. *)
Fixpoint applyR {A B} (f : A -> result B) (s : series A) : result (series B) :=
  match s with
  | [] => Ok []
  | (i, a) :: s' =>
      let? b := f a in
      let? t := applyR f s' in
      Ok ((i, b) :: t)
  end.

(** [pd.read_csv(path, index_col=...)] *)
Definition read_csv (path : string) (index_col : option nat) : M frame :=
  f <- read_file path ;;
  match f with
  | CsvFile t => ret (parse_csv index_col t)
  | TextFile _ => lift (Raise ParserError)
  end.

(** [df.sort_values(by)] *)
Definition sort_values (by_ : string) (df : frame) : result frame :=
  if has_column by_ df
  then Ok {| columns := columns df; rows := sort_rows by_ (rows df) |}
  else Raise (KeyError by_).

(** [str(c)] as [to_csv] writes a cell. *)
Definition render (c : cell) : str :=
  match c with
  | NaN => []
  | Int z => str_int z
  | Str s => s
  | Vec v => lit "[" ++ join (lit ", ") (map repr_float v) ++ lit "]"
  end.

Definition csv_of_frame (df : frame) : csv :=
  {| header := "" :: columns df;
     lines := map (fun ir => str_int (fst ir)
                             :: map (fun c => render (at_ c (snd ir))) (columns df))
                  (rows df) |}.

(** [df.to_csv(path)] *)
Definition to_csv (path : string) (df : frame) : M unit :=
  write_file path (CsvFile (csv_of_frame df)).

(** [openai.embeddings_utils.get_embedding(x, engine=engine)]: one exchange
    with the embedding endpoint.  The helper first calls [x.replace], which
    a value that is not a string does not have. *)
Definition get_embedding (x : cell) (engine : string) : M (list float) :=
  match x with
  | Str s => fun w => (embedding_endpoint (calls w) s engine,
                       log_call (EmbeddingCall s engine) w)
  | _ => lift (Raise (AttributeError "replace"))
  end.

(** [s.apply(lambda x: get_embedding(x, engine=engine))] *)
Definition embed_series (engine : string) (s : series cell) : M (series cell) :=
  mapM (fun ix => v <- get_embedding (snd ix) engine ;; ret (fst ix, Vec v)) s.

End Lib.
End Lib.

(* ===================================================================== *)
(** ** Notebook [Obtain_dataset] *)
(* ===================================================================== *)

Module ObtainDataset.
Section Notebook.

Variable parse_csv : option nat -> csv -> frame.
Variable sort_rows : string -> list (Z * row) -> list (Z * row).
(** [tiktoken.get_encoding(name).encode] *)
Variable tiktoken_encode : string -> str -> list N.
Variable repr_float : float -> str.
Variable embedding_endpoint : list call -> str -> string -> result (list float).

(** embedding model parameters *)
Definition embedding_model := "text-embedding-ada-002".
Definition embedding_encoding := "cl100k_base".
Definition max_tokens : Z := 8000.

Definition input_datapath := "data/fine_food_reviews_1k.csv".
Definition output_datapath := "data/fine_food_reviews_with_embeddings_1k.csv".

(** The column selection, [dropna] and the [combined] column. *)
Definition combine (df : frame) : result frame :=
  let? df := select ["Time"; "ProductId"; "UserId"; "Score"; "Summary"; "Text"] df in
  let df := dropna df in
  let? Summary := getattr "Summary" df in
  let? Text := getattr "Text" df in
  Ok (setitem "combined"
        (apply cell_of_text
           (add (add_lit (radd (lit "Title: ") (str_strip Summary))
                         (lit "; Content: "))
                (str_strip Text)))
        df).

(** load & inspect dataset *)
Definition load_dataset : M frame :=
  df <- Lib.read_csv parse_csv input_datapath (Some 0%nat) ;;
  lift (combine df).

Definition top_n : nat := 1000.

(** [len(encoding.encode(x))] *)
Definition count_tokens (x : cell) : result cell :=
  match x with
  | Str s => Ok (Int (Z.of_nat (length (tiktoken_encode embedding_encoding s))))
  | _ => Raise TypeError
  end.

(** [df.n_tokens <= max_tokens], row by row (a missing value compares
    false). *)
Definition short_enough (r : row) : bool :=
  match at_ "n_tokens" r with
  | Int n => (n <=? max_tokens)%Z
  | _ => false
  end.

(** subsample to 1k most recent reviews and remove samples that are too long *)
Definition subsample (df : frame) : result frame :=
  let? df := Lib.sort_values sort_rows "Time" df in
  let df := tail (top_n * 2) df in
  let? df := drop "Time" df in
  let? combined := getattr "combined" df in
  let? n_tokens := Lib.applyR count_tokens combined in
  let df := setitem "n_tokens" n_tokens df in
  Ok (tail top_n (where_ short_enough df)).

(** Get embeddings and save them for future reuse *)
Definition embed_and_save (df : frame) : M frame :=
  combined <- lift (getattr "combined" df) ;;
  embedding <- Lib.embed_series embedding_endpoint embedding_model combined ;;
  let df := setitem "embedding" embedding df in
  Lib.to_csv repr_float output_datapath df ;;
  ret df.

(** The notebook, top to bottom. *)
Definition run : M frame :=
  df <- load_dataset ;;
  df <- lift (subsample df) ;;
  embed_and_save df.

End Notebook.
End ObtainDataset.

(* ===================================================================== *)
(** ** Split, fit, predict, report (both classification notebooks) *)
(* ===================================================================== *)

Module Classifier.
Section Classifier.

(** [sklearn.model_selection.train_test_split(X, y, test_size, random_state)] *)
Variable train_test_split :
  list cell -> series cell -> Q -> N ->
  result (list cell * list cell * series cell * series cell).
(** A fitted [RandomForestClassifier]. *)
Variable classifier : Type.
(** [RandomForestClassifier(n_estimators=n).fit(X, y)] *)
Variable fit : nat -> list cell -> series cell -> result classifier.
Variable predict : classifier -> list cell -> result (list cell).
Variable predict_proba : classifier -> list cell -> result (list (list float)).
Variable classification_report : series cell -> list cell -> result str.

(** [list(s.values)] *)
Definition values {A} (s : series A) : list A := map snd s.

Definition fit_and_report (X : series cell) (y : series cell)
  : M (list cell * list (list float)) :=
  split <- lift (train_test_split (values X) y (2 # 10)%Q 42%N) ;;
  let '(X_train, X_test, y_train, y_test) := split in
  clf <- lift (fit 100 X_train y_train) ;;
  preds <- lift (predict clf X_test) ;;
  probas <- lift (predict_proba clf X_test) ;;
  report <- lift (classification_report y_test preds) ;;
  print report ;;
  ret (preds, probas).

End Classifier.
End Classifier.

(* ===================================================================== *)
(** ** Notebook [Classification_using_embeddings] *)
(* ===================================================================== *)

Module Classification.
Section Notebook.

Variable parse_csv : option nat -> csv -> frame.
(** [np.array(eval(s))] *)
Variable py_eval : str -> result cell.
Variable train_test_split :
  list cell -> series cell -> Q -> N ->
  result (list cell * list cell * series cell * series cell).
Variable classifier : Type.
Variable fit : nat -> list cell -> series cell -> result classifier.
Variable predict : classifier -> list cell -> result (list cell).
Variable predict_proba : classifier -> list cell -> result (list (list float)).
Variable classification_report : series cell -> list cell -> result str.

Definition datafile_path := "data/fine_food_reviews_with_embeddings_1k.csv".

Definition eval_cell (c : cell) : result cell :=
  match c with
  | Str s => py_eval s
  | _ => Raise TypeError
  end.

(** load data *)
Definition load_data : M frame :=
  df <- Lib.read_csv parse_csv datafile_path None ;;
  embedding <- lift (getattr "embedding" df) ;;
  embedding <- lift (Lib.applyR eval_cell embedding) ;;
  ret (setitem "embedding" embedding df).

Definition run : M (list cell * list (list float)) :=
  df <- load_data ;;
  X <- lift (getattr "embedding" df) ;;
  y <- lift (getattr "Score" df) ;;
  Classifier.fit_and_report train_test_split classifier fit predict
    predict_proba classification_report X y.

End Notebook.
End Classification.

(* ===================================================================== *)
(** ** Notebook [Multiclass_classification_for_transactions] *)
(* ===================================================================== *)

Module Transactions.

(** A parsed JSON value. *)
Inductive json : Type :=
| JNull
| JBool (b : bool)
| JNum (z : Z)
| JString (s : str)
| JArray (l : list json)
| JObject (m : list (string * json)).

(** What a Python [set] compares: [True == 1] and [False == 0]. *)
Inductive key : Type :=
| KNone
| KNum (z : Z)
| KStr (s : str).

Definition key_eq_dec : forall a b : key, {a = b} + {a <> b}.
Proof.
  decide equality;
    [ apply Z.eq_dec | apply (list_eq_dec N.eq_dec) ].
Defined.

(** Hashing a value; lists and dicts are unhashable. *)
Definition hashable (v : json) : result key :=
  match v with
  | JNull => Ok KNone
  | JBool b => Ok (KNum (if b then 1 else 0))
  | JNum z => Ok (KNum z)
  | JString s => Ok (KStr s)
  | JArray _ | JObject _ => Raise TypeError
  end.

Fixpoint json_lookup (k : string) (m : list (string * json)) : option json :=
  match m with
  | [] => None
  | (k', v) :: m' => if String.eqb k k' then Some v else json_lookup k m'
  end.

(** [result[k]] for a string [k] *)
Definition json_getitem (k : string) (v : json) : result json :=
  match v with
  | JObject m =>
      match json_lookup k m with
      | Some x => Ok x
      | None => Raise (KeyError k)
      end
  | _ => Raise TypeError
  end.

(** [classes.add(k)] on a set kept in insertion order. *)
Definition set_add (k : key) (classes : list key) : list key :=
  if in_dec key_eq_dec k classes then classes else classes ++ [k].

(** [transaction[c]] *)
Definition row_getitem (c : string) (r : row) : result cell :=
  match lookup c r with
  | Some v => Ok v
  | None => Raise (KeyError c)
  end.

(** The second argument of [str.replace] must be a string. *)
Definition as_str (c : cell) : result str :=
  match c with
  | Str s => Ok s
  | _ => Raise TypeError
  end.

Section Notebook.

Variable parse_csv : option nat -> csv -> frame.
Variable repr_float : float -> str.
(** The completion endpoint. *)
Variable completion_endpoint : list call -> CompletionRequest -> result CompletionResponse.
Variable embedding_endpoint : list call -> str -> string -> result (list float).
(** [json.loads] *)
Variable json_loads : str -> result json.
(** [str(s)] for a Series [s] with its name: one text for the whole column. *)
Variable Series_str : string -> series cell -> str.
(** [GPT2TokenizerFast.from_pretrained(name).encode] *)
Variable gpt2_encode : string -> str -> list N.
(** [np.array(eval(s))] *)
Variable py_eval : str -> result cell.
Variable train_test_split :
  list cell -> series cell -> Q -> N ->
  result (list cell * list cell * series cell * series cell).
Variable classifier : Type.
Variable fit : nat -> list cell -> series cell -> result classifier.
Variable predict : classifier -> list cell -> result (list cell).
Variable predict_proba : classifier -> list cell -> result (list (list float)).
Variable classification_report : series cell -> list cell -> result str.

Definition COMPLETIONS_MODEL := "text-davinci-002".

(** [str(v)] for a cell of a row. *)
Definition py_str (c : cell) : str :=
  match c with
  | NaN => lit "nan"
  | other => Lib.render repr_float other
  end.

Definition request_completion (prompt : str) : M CompletionResponse :=
  fun w =>
    let req := {| prompt := prompt;
                  temperature := 0;
                  Runtime.max_tokens := 5;
                  top_p := 1;
                  frequency_penalty := 0;
                  presence_penalty := 0;
                  model := COMPLETIONS_MODEL |} in
    (completion_endpoint (calls w) req, log_call (CompletionCall req) w).

Definition newline : str := [10%N].

Definition pound : str := [163%N].

Definition zero_shot_prompt : str :=
  lit "You are a data expert working for the National Library of Scotland. " ++ newline
  ++ lit "You are analysing all transactions over " ++ pound
  ++ lit "25,000 in value and classifying them into one of five categories." ++ newline
  ++ lit "The five categories are Building Improvement, Literature & Archive, Utility Bills, Professional Services and Software/IT." ++ newline
  ++ lit "If you can't tell what it is, say Could not classify" ++ newline
  ++ lit "                      " ++ newline
  ++ lit "Transaction:" ++ newline
  ++ lit "                      " ++ newline
  ++ lit "Supplier: SUPPLIER_NAME" ++ newline
  ++ lit "Description: DESCRIPTION_TEXT" ++ newline
  ++ lit "Value: TRANSACTION_VALUE" ++ newline
  ++ lit "                      " ++ newline
  ++ lit "The classification is:".

Definition classify_transaction (transaction : row) (prompt : str) : M str :=
  supplier <- lift (let? v := row_getitem "Supplier" transaction in as_str v) ;;
  let prompt := replace (lit "SUPPLIER_NAME") supplier prompt in
  description <- lift (let? v := row_getitem "Description" transaction in as_str v) ;;
  let prompt := replace (lit "DESCRIPTION_TEXT") description prompt in
  value <- lift (row_getitem "Transaction value (£)" transaction) ;;
  let prompt := replace (lit "TRANSACTION_VALUE") (py_str value) prompt in
  response <- request_completion prompt ;;
  first <- lift (match choices response with
                 | c :: _ => Ok c
                 | [] => Raise IndexError
                 end) ;;
  ret (replace newline [] (text first)).

(** [open(path, 'r')] and [list(json_file)] *)
Definition read_lines (path : string) : M (list str) :=
  f <- read_file path ;;
  match f with
  | TextFile ls => ret ls
  | CsvFile _ => lift (Raise ParserError)
  end.

(** The loop [for json_str in json_list: ... classes.add(result['completion'])] *)
Fixpoint collect_classes (json_list : list str) (classes : list key)
  : result (list key) :=
  match json_list with
  | [] => Ok classes
  | json_str :: rest =>
      let? result := json_loads json_str in
      let? completion := json_getitem "completion" result in
      let? k := hashable completion in
      collect_classes rest (set_add k classes)
  end.

Definition check_finetune_classes (train_file valid_file : string) : M unit :=
  json_list <- read_lines train_file ;;
  print (str_int (Z.of_nat (length json_list))) ;;
  train_classes <- lift (collect_classes json_list []) ;;
  json_list <- read_lines valid_file ;;
  print (str_int (Z.of_nat (length json_list))) ;;
  valid_classes <- lift (collect_classes json_list []) ;;
  if Nat.eqb (length train_classes) (length valid_classes)
  then print (lit "All good")
  else print (lit "Classes do not match, please prepare data again").

(** [test_transactions.apply(lambda x: classify_transaction(x, prompt), axis=1)] *)
Definition classify_all (prompt : str) (df : frame) : M frame :=
  labels <- mapM (fun ir => c <- classify_transaction (snd ir) prompt ;;
                            ret (fst ir, Str c))
                 (rows df) ;;
  ret (setitem "Classification" labels df).

(** The first 25 transactions, classified with the zero-shot prompt. *)
Definition zero_shot_classification (transactions : frame) : M frame :=
  classify_all zero_shot_prompt (iloc_to 25 transactions).

(** The [combined] column of the labelled transactions. *)
Definition combine (df : frame) : result frame :=
  let? Supplier := getitem "Supplier" df in
  let? Description := getitem "Description" df in
  let? Value := getitem "Transaction value (£)" df in
  Ok (setitem "combined"
        (apply cell_of_text
           (add_lit
              (add_lit
                 (add (add_lit (radd (lit "Supplier: ") (str_strip Supplier))
                               (lit "; Description: "))
                      (str_strip Description))
                 (lit "; Value: "))
              (strip (Series_str "Transaction value (£)" Value))))
        df).

Definition embedding_path := "./data/transactions_with_embeddings_100.csv".

Definition count_tokens (x : cell) : result cell :=
  match x with
  | Str s => Ok (Int (Z.of_nat (length (gpt2_encode "gpt2" s))))
  | _ => Raise TypeError
  end.

Definition embed_and_save (df : frame) : M frame :=
  combined <- lift (getattr "combined" df) ;;
  n_tokens <- lift (Lib.applyR count_tokens combined) ;;
  let df := setitem "n_tokens" n_tokens df in
  combined <- lift (getattr "combined" df) ;;
  similarity <- Lib.embed_series embedding_endpoint "text-similarity-babbage-001" combined ;;
  let df := setitem "babbage_similarity" similarity df in
  combined <- lift (getattr "combined" df) ;;
  search <- Lib.embed_series embedding_endpoint "text-search-babbage-doc-001" combined ;;
  let df := setitem "babbage_search" search df in
  Lib.to_csv repr_float embedding_path df ;;
  ret df.

Definition eval_cell (c : cell) : result cell :=
  match c with
  | Str s => py_eval s
  | _ => Raise TypeError
  end.

(** Use embeddings for classification *)
Definition classify_with_embeddings : M (list cell * list (list float)) :=
  fs_df <- Lib.read_csv parse_csv embedding_path None ;;
  similarity <- lift (getattr "babbage_similarity" fs_df) ;;
  similarity <- lift (Lib.applyR eval_cell similarity) ;;
  let fs_df := setitem "babbage_similarity" similarity fs_df in
  X <- lift (getattr "babbage_similarity" fs_df) ;;
  y <- lift (getattr "Classification" fs_df) ;;
  Classifier.fit_and_report train_test_split classifier fit predict
    predict_proba classification_report X y.

End Notebook.
End Transactions.

(* ===================================================================== *)
(** ** The texts the specification describes *)
(* ===================================================================== *)

Module Spec.


(** 'Supplier: ' + strip(Supplier) + '; Description: ' + strip(Description)
    + '; Value: ' + the string of the value *)
Definition transaction_text (supplier description value : str) : str :=
  lit "Supplier: " ++ strip supplier ++ lit "; Description: "
  ++ strip description ++ lit "; Value: " ++ value.

Definition review_columns : list string :=
  ["Time"; "ProductId"; "UserId"; "Score"; "Summary"; "Text"].



(** The [n_tokens] cell of a combined text. *)
Definition n_tokens_cell (encode : str -> list N) (c : cell) : cell :=
  match c with
  | Str s => Int (Z.of_nat (length (encode s)))
  | _ => NaN
  end.

(** A row of the 2000-row cut once [Time] is dropped and [n_tokens] added. *)
Definition with_tokens (encode : str -> list N) (ir : Z * row) : Z * row :=
  (fst ir,
   set "n_tokens" (n_tokens_cell encode (at_ "combined" (snd ir)))
     (del "Time" (snd ir))).


(** The 2000 most recent rows, and the rows before them. *)
Definition cut (sort_rows : string -> list (Z * row) -> list (Z * row))
  (df : frame) : list (Z * row) :=
  last_n 2000 (sort_rows "Time" (rows df)).

Definition older (sort_rows : string -> list (Z * row) -> list (Z * row))
  (df : frame) : list (Z * row) :=
  firstn (length (rows df) - 2000) (sort_rows "Time" (rows df)).

(** The ['completion'] values of the lines of a prepared file, in order. *)
Fixpoint completions (json_loads : str -> result Transactions.json)
  (json_list : list str) : result (list Transactions.key) :=
  match json_list with
  | [] => Ok []
  | json_str :: rest =>
      let? result := json_loads json_str in
      let? completion := Transactions.json_getitem "completion" result in
      let? k := Transactions.hashable completion in
      let? ks := completions json_loads rest in
      Ok (k :: ks)
  end.

(** The number of distinct values in a list. *)
Definition distinct (ks : list Transactions.key) : nat :=
  length (nodup Transactions.key_eq_dec ks).

(** The request [request_completion] sends for a prompt. *)
Definition request_for (p : str) : CompletionRequest :=
  {| prompt := p;
     temperature := 0;
     Runtime.max_tokens := 5;
     top_p := 1;
     frequency_penalty := 0;
     presence_penalty := 0;
     model := "text-davinci-002" |}.

(** The template with the three placeholders substituted, in the order of
    the three [replace] calls. *)
Definition filled_prompt (template supplier description value : str) : str :=
  replace (lit "TRANSACTION_VALUE") value
    (replace (lit "DESCRIPTION_TEXT") description
       (replace (lit "SUPPLIER_NAME") supplier template)).

(** The token count of a row's combined text exceeds the limit. *)
Definition too_long (encode : str -> list N) (limit : Z) (r : row) : bool :=
  match at_ "combined" r with
  | Str s => (limit <? Z.of_nat (length (encode s)))%Z
  | _ => false
  end.

End Spec.

(* ===================================================================== *)
(** ** Concrete tables and stand-ins for the libraries *)
(* ===================================================================== *)

Module Samples.

(** Two labelled transactions with different values. *)
Definition two_transactions : frame :=
  {| columns := ["Supplier"; "Description"; "Transaction value (£)"; "Classification"];
     rows :=
       [ (0%Z, [("Supplier", Str (lit "ACME Ltd"));
                ("Description", Str (lit "Bricks"));
                ("Transaction value (£)", Int 30000);
                ("Classification", Str (lit "Building Improvement"))]);
         (1%Z, [("Supplier", Str (lit "Bolt plc"));
                ("Description", Str (lit "Cabling"));
                ("Transaction value (£)", Int 45000);
                ("Classification", Str (lit "Software/IT"))]) ] |}.

(** A tokenizer that emits one token per code point. *)
Definition encode (_ : string) (s : str) : list N := s.

Definition long_body : str := repeat 120%N (N.to_nat 8000).
Definition long_text : str := lit "Title: long; Content: " ++ long_body.
Definition short_text : str :=
  lit "Title: Arrived in pieces; Content: Not pleased at all.".

Definition review (i : nat) (is_long : bool) : Z * row :=
  (Z.of_nat i,
   [("Time", Int (1351123200 + Z.of_nat i));
    ("ProductId", Str (lit "B003JK537S"));
    ("UserId", Str (lit "A3JBPC3WFUT5ZP"));
    ("Score", Int 1);
    ("Summary", Str (if is_long then lit "long" else lit "Arrived in pieces"));
    ("Text", Str (if is_long then long_body else lit "Not pleased at all."));
    ("combined", Str (if is_long then long_text else short_text))]).

(** 2500 reviews in ascending [Time]: 500 short ones, then 1001 that are
    over the token limit, then 999 short ones. *)
Definition many_reviews : frame :=
  {| columns := ["Time"; "ProductId"; "UserId"; "Score"; "Summary"; "Text";
                 "combined"];
     rows := map (fun i => review i ((500 <=? i)%nat && (i <? 1501)%nat))
                 (seq 0 2500) |}.

(** Three reviews, the middle one over the token limit. *)
Definition few_reviews : frame :=
  {| columns := ["Time"; "ProductId"; "UserId"; "Score"; "Summary"; "Text";
                 "combined"];
     rows := [review 0 false; review 1 true; review 2 false] |}.

(** A stable insertion sort on one column, standing in for [sort_values]. *)
Fixpoint insert_row (c : string) (x : Z * row) (rs : list (Z * row))
  : list (Z * row) :=
  match rs with
  | [] => [x]
  | y :: rs' =>
      if key_leb (at_ c (snd x)) (at_ c (snd y))
      then x :: y :: rs'
      else y :: insert_row c x rs'
  end.

Definition sort_rows (c : string) (rs : list (Z * row)) : list (Z * row) :=
  fold_right (insert_row c) [] rs.

Definition empty_frame : frame := {| columns := []; rows := [] |}.

(** An embedding endpoint that answers from the text alone. *)
Definition steady_endpoint (_ : list call) (x : str) (_ : string)
  : result (list float) :=
  Ok [Z.of_nat (length x); 0%Z].



Definition repr_float (x : float) : str := str_int x.



(** A small reader of delimited tables: an empty field is missing, a field
    of digits is an integer, anything else is text; with [index_col] the
    first field is the row label, otherwise rows are numbered. *)
Fixpoint digits (s : str) (acc : Z) : option Z :=
  match s with
  | [] => Some acc
  | c :: s' =>
      if ((48 <=? c) && (c <=? 57))%N
      then digits s' (10 * acc + Z.of_N (c - 48))
      else None
  end.

Definition parse_field (s : str) : cell :=
  match s with
  | [] => NaN
  | _ => match digits s 0 with Some z => Int z | None => Str s end
  end.

Fixpoint zip_row (cs : list string) (fields : list str) : row :=
  match cs, fields with
  | c :: cs', f :: fields' => (c, parse_field f) :: zip_row cs' fields'
  | _, _ => []
  end.

Fixpoint number_rows (n : Z) (cs : list string) (ls : list (list str))
  : list (Z * row) :=
  match ls with
  | [] => []
  | l :: ls' => (n, zip_row cs l) :: number_rows (n + 1) cs ls'
  end.

Definition parse_csv (index_col : option nat) (t : csv) : frame :=
  match index_col with
  | Some _ =>
      {| columns := List.tl (header t);
         rows := map (fun l => (match digits (hd [] l) 0 with
                                | Some z => z
                                | None => 0%Z
                                end,
                                zip_row (List.tl (header t)) (List.tl l)))
                     (lines t) |}
  | None =>
      {| columns := map (fun c => if String.eqb c "" then "Unnamed: 0" else c)
                        (header t);
         rows := number_rows 0
                   (map (fun c => if String.eqb c "" then "Unnamed: 0" else c)
                        (header t))
                   (lines t) |}
  end.

(** The input file: three reviews, the last one without a title. *)
Definition input_csv : csv :=
  {| header := [""; "Time"; "ProductId"; "UserId"; "Score"; "Summary"; "Text"];
     lines :=
       [ [lit "0"; lit "1351123200"; lit "B003XPF9BO"; lit "A3R7JR3FMEBXQB";
          lit "5"; lit "Good"; lit " Tasty. "];
         [lit "1"; lit "1351123200"; lit "B003JK537S"; lit "A3JBPC3WFUT5ZP";
          lit "1"; lit "Arrived in pieces"; lit "Not pleased at all."];
         [lit "2"; lit "1351209600"; lit "B000LKTTTW"; lit "A1XYZ";
          lit "3"; lit ""; lit "No title."] ] |}.



(** A JSON reader for the lines ["0"], ["1"], ... of the sample files: line
    [n] is the object whose ['completion'] is the string [" n"]. *)
Definition json_loads (line : str) : result Transactions.json :=
  match line with
  | [d] => Ok (Transactions.JObject
                 [("prompt", Transactions.JString (lit "Supplier: ..."));
                  ("completion", Transactions.JString (32%N :: [d]))])
  | _ => Raise ParserError
  end.

(** A training file with the classes 0 and 1, a validation file with the
    classes 2 and 3. *)
Definition prepared_world : World :=
  {| calls := [];
     files := [("train.jsonl", TextFile [lit "0"; lit "1"; lit "0"]);
               ("valid.jsonl", TextFile [lit "2"; lit "3"])];
     stdout := [] |}.

Definition first_transaction : row :=
  [("Supplier", Str (lit "ACME Ltd"));
   ("Description", Str (lit "Bricks"));
   ("Transaction value (£)", Int 30000);
   ("Classification", Str (lit "Building Improvement"))].

Definition fresh_world : World := {| calls := []; files := []; stdout := [] |}.

(** Two reviews with their combined text. *)
Definition two_reviews : frame :=
  {| columns := ["ProductId"; "Score"; "combined"];
     rows :=
       [ (0%Z, [("ProductId", Str (lit "B003XPF9BO")); ("Score", Int 5);
                ("combined", Str (lit "Title: Good; Content: Tasty."))]);
         (1%Z, [("ProductId", Str (lit "B003JK537S")); ("Score", Int 1);
                ("combined", Str short_text)]) ] |}.

Definition frame_of (r : result frame) : frame :=
  match r with
  | Ok out => out
  | Raise _ => empty_frame
  end.

Definition subsampled : frame :=
  frame_of (ObtainDataset.subsample sort_rows encode few_reviews).

Definition last_row : row := snd (last (rows subsampled) (0%Z, [])).


End Samples.

(* ===================================================================== *)
(** ** More of pandas *)
(* ===================================================================== *)

Module PandasMore.

(** [df.iloc[n:]] *)
Definition iloc_from (n : nat) (df : frame) : frame :=
  {| columns := columns df; rows := skipn n (rows df) |}.

Definition cell_eq_dec : forall a b : cell, {a = b} + {a <> b}.
Proof.
  decide equality;
    [ apply Z.eq_dec | apply (list_eq_dec N.eq_dec) | apply (list_eq_dec Z.eq_dec) ].
Defined.

Definition cell_eqb (a b : cell) : bool :=
  if cell_eq_dec a b then true else false.

(** [a == b] on strings *)
Definition str_eqb (a b : str) : bool :=
  if list_eq_dec N.eq_dec a b then true else false.

(** A fresh [RangeIndex]: the rows numbered from [n]. *)
Fixpoint renumber (n : Z) (rs : list row) : list (Z * row) :=
  match rs with
  | [] => []
  | r :: rs' => (n, r) :: renumber (n + 1) rs'
  end.

(** [pd.DataFrame(values).reset_index()] with its two columns renamed: the
    position of each value, and the value. *)
Definition enumerate_frame (id_name value_name : string) (values : list cell)
  : frame :=
  {| columns := [id_name; value_name];
     rows := renumber 0
               (map (fun iv => [(id_name, Int (Z.of_nat (fst iv)));
                                (value_name, snd iv)])
                    (combine (seq 0 (length values)) values)) |}.

(** [left.merge(right, left_on=l, right_on=r, how='inner')] for frames with
    no column name in common: every left row paired with every right row
    whose key equals its own, under a fresh index.  The order in which the
    library lays out the pairs is [join_order]'s. *)
Definition merge_inner (join_order : list row -> list row)
  (left right : frame) (left_on right_on : string) : result frame :=
  if negb (has_column left_on left) then Raise (KeyError left_on)
  else if negb (has_column right_on right) then Raise (KeyError right_on)
  else
    Ok {| columns := columns left ++ columns right;
          rows :=
            renumber 0
              (join_order
                 (flat_map
                    (fun ir =>
                       map (fun jr => project (columns left) (snd ir)
                                      ++ project (columns right) (snd jr))
                           (filter (fun jr => cell_eqb (at_ left_on (snd ir))
                                                       (at_ right_on (snd jr)))
                                   (rows right)))
                    (rows left))) |}.

(** [df.apply(f, axis=1)] for an [f] that may raise. *)
Fixpoint apply_rows (f : row -> result cell) (rs : list (Z * row))
  : result (series cell) :=
  match rs with
  | [] => Ok []
  | (i, r) :: rs' =>
      let? v := f r in
      let? t := apply_rows f rs' in
      Ok ((i, v) :: t)
  end.

End PandasMore.
Import PandasMore.

(* ===================================================================== *)
(** ** The fine-tuning cells of the transactions notebook *)
(* ===================================================================== *)

Module FineTune.
Section Notebook.

Variable repr_float : float -> str.
(** [list(set(xs))]: the distinct values, in the order the set yields. *)
Variable set_list : list cell -> list cell.
(** The [k]-th call of [random.randint(a, b)]. *)
Variable randint : nat -> Z -> Z -> Z.
(** Row order chosen by [DataFrame.sort_index]. *)
Variable sort_index : list (Z * row) -> list (Z * row).
(** Row order chosen by [DataFrame.merge]. *)
Variable join_order : list row -> list row.

Definition separator : str := [10%N; 10%N] ++ lit "###" ++ [10%N; 10%N].

(** [classes = list(set(ft_prep_df['Classification']))] and [class_df] *)
Definition class_table (ft_prep_df : frame) : result frame :=
  let? Classification := getitem "Classification" ft_prep_df in
  let classes := set_list (Classifier.values Classification) in
  Ok (enumerate_frame "class_id" "class" classes).

(** [' ' + str(x['class_id'])] *)
Definition spaced_id (x : row) : result cell :=
  let? v := Transactions.row_getitem "class_id" x in
  Ok (Str (lit " " ++ Transactions.py_str repr_float v)).

(** [x['combined'] + '\n\n###\n\n'] *)
Definition ended_prompt (x : row) : result cell :=
  let? v := Transactions.row_getitem "combined" x in
  let? s := Transactions.as_str v in
  Ok (Str (s ++ separator)).

Definition with_class (ft_prep_df class_df : frame) : result frame :=
  let? ft_df_with_class :=
    merge_inner join_order ft_prep_df class_df "Classification" "class" in
  let? class_id := apply_rows spaced_id (rows ft_df_with_class) in
  let ft_df_with_class := setitem "class_id" class_id ft_df_with_class in
  let? ft_df_with_class := drop "class" ft_df_with_class in
  let? prompt := apply_rows ended_prompt (rows ft_df_with_class) in
  Ok (setitem "prompt" prompt ft_df_with_class).

(** The shuffling cell: prompts and labels zipped into a two-column frame,
    a random key per row as the index, rows sorted by it.  (On a frame
    without rows the library's row-wise [apply] yields a frame, not a
    column; the facts about this cell are stated for frames with at least
    one row.) *)
Definition shuffled (ft_df_with_class : frame) : result frame :=
  let? labels := getitem "class_id" ft_df_with_class in
  let? text := getitem "prompt" ft_df_with_class in
  let pairs := combine (Classifier.values text) (Classifier.values labels) in
  let n := length pairs in
  let ordering := map (fun k => randint k 0 (Z.of_nat n)) (seq 0 n) in
  let ft_df :=
    map (fun op => (fst op, [("prompt", fst (snd op));
                             ("completion", snd (snd op))]))
        (combine ordering pairs) in
  Ok {| columns := ["prompt"; "completion"]; rows := sort_index ft_df |}.

(** The data preparation, from the labelled frame to the shuffled examples. *)
Definition prepare (ft_prep_df : frame) : result frame :=
  let? class_df := class_table ft_prep_df in
  let? ft_df_with_class := with_class ft_prep_df class_df in
  shuffled ft_df_with_class.

(** [str(x['pred']).strip() == str(x['completion']).strip()] *)
Definition prediction_correct (x : row) : result bool :=
  let? pred := Transactions.row_getitem "pred" x in
  let? completion := Transactions.row_getitem "completion" x in
  Ok (str_eqb (strip (Transactions.py_str repr_float pred))
              (strip (Transactions.py_str repr_float completion))).

(** The prompts of the holdout set. *)
Definition holdout (transactions : frame) : result frame :=
  let holdout_df := iloc_from 101 transactions in
  let? Supplier := getitem "Supplier" holdout_df in
  let? Description := getitem "Description" holdout_df in
  Ok (setitem "combined"
        (apply cell_of_text
           (add_lit
              (add (add_lit (radd (lit "Supplier: ") (str_strip Supplier))
                            (lit "; Description: "))
                   (str_strip Description))
              separator))
        holdout_df).

End Notebook.
End FineTune.

(* ===================================================================== *)
(** ** What a step does to the world, and other derived notions *)
(* ===================================================================== *)

Module Derived.

(** From [w] to [w'] the requests [sent] were logged and nothing else
    changed. *)
Definition only_sent (w w' : World) (sent : list call) : Prop :=
  calls w' = calls w ++ sent /\ files w' = files w /\ stdout w' = stdout w.



Definition is_str (c : cell) : bool :=
  match c with Str _ => true | _ => false end.

(** The rows of the cut that are within the token limit. *)
Definition eligible (sort_rows : string -> list (Z * row) -> list (Z * row))
  (encode : str -> list N) (df : frame) : list (Z * row) :=
  filter (fun ir => negb (Spec.too_long encode 8000 (snd ir)))
         (Spec.cut sort_rows df).

(** 'Supplier: ' + strip(Supplier) + '; Description: ' + strip(Description)
    + the separator *)
Definition holdout_text (supplier description : str) : str :=
  lit "Supplier: " ++ strip supplier ++ lit "; Description: "
  ++ strip description ++ FineTune.separator.

(** The position of a value in a list. *)
Fixpoint index_of (c : cell) (l : list cell) : option nat :=
  match l with
  | [] => None
  | x :: l' => if cell_eqb c x then Some 0%nat
               else option_map S (index_of c l')
  end.

(** The example the preparation makes of one labelled row. *)
Definition example_of (repr_float : float -> str) (classes : list cell)
  (r : row) : option (cell * cell) :=
  match at_ "combined" r, index_of (at_ "Classification" r) classes with
  | Str s, Some k =>
      Some (Str (s ++ FineTune.separator),
            Str (lit " " ++ str_int (Z.of_nat k)))
  | _, _ => None
  end.

Definition pair_of (r : row) : cell * cell :=
  (at_ "prompt" r, at_ "completion" r).

(** The row of the class table for the [k]-th class. *)
Definition class_row (k : nat) (c : cell) : row :=
  [("class_id", Int (Z.of_nat k)); ("class", c)].

(** What the join makes of one labelled row: the row with the line of its
    class in the class table, or nothing when the table has no such
    class. *)
Definition joined (classes : list cell) (cols : list string) (r : row)
  : list row :=
  match index_of (at_ "Classification" r) classes with
  | Some k => [project cols r ++ class_row k (at_ "Classification" r)]
  | None => []
  end.

(** A joined row after the three assignments of the class cell. *)
Definition finished (repr_float : float -> str) (r : row) : row :=
  let r1 :=
    del "class"
      (set "class_id"
         (Str (lit " " ++ Transactions.py_str repr_float (at_ "class_id" r)))
         r) in
  set "prompt"
    (match at_ "combined" r1 with
     | Str s => Str (s ++ FineTune.separator)
     | _ => NaN
     end)
    r1.

(** From [w] to [w'] the lines [printed] were printed and nothing else
    changed. *)
Definition printed_only (w w' : World) (printed : list str) : Prop :=
  w' = {| calls := calls w; files := files w; stdout := stdout w ++ printed |}.

(** A text that holds no whitespace. *)
Definition clean (s : str) : bool := forallb (fun c => negb (isspace c)) s.

(** A line that is the decimal text of a count. *)
Definition is_count (l : str) : Prop := exists n, l = str_int (Z.of_nat n).

(** The three fields [classify_transaction] reads, when the row holds them
    and the first two are strings. *)
Definition fields_of (transaction : row) : option (str * str * cell) :=
  match lookup "Supplier" transaction with
  | Some (Str s) =>
      match lookup "Description" transaction with
      | Some (Str d) =>
          match lookup "Transaction value (£)" transaction with
          | Some v => Some (s, d, v)
          | None => None
          end
      | _ => None
      end
  | _ => None
  end.

(** The request [classify_transaction] sends for a row and a template. *)
Definition request_of (repr_float : float -> str) (template : str)
  (transaction : row) (c : call) : Prop :=
  exists s d v,
    fields_of transaction = Some (s, d, v)
    /\ c = CompletionCall
             (Spec.request_for
                (Spec.filled_prompt template s d
                   (Transactions.py_str repr_float v))).

End Derived.

(* ===================================================================== *)
(** ** More sample tables *)
(* ===================================================================== *)

Module MoreSamples.

(** Three labelled transactions, two of one class. *)
Definition labelled : frame :=
  {| columns := ["Supplier"; "Description"; "Classification"; "combined"];
     rows :=
       [ (0%Z, [("Supplier", Str (lit "ACME Ltd"));
                ("Description", Str (lit "Bricks"));
                ("Classification", Str (lit "Building Improvement"));
                ("combined", Str (lit "Supplier: ACME Ltd; Description: Bricks"))]);
         (1%Z, [("Supplier", Str (lit "Bolt plc"));
                ("Description", Str (lit "Cabling"));
                ("Classification", Str (lit "Software/IT"));
                ("combined", Str (lit "Supplier: Bolt plc; Description: Cabling"))]);
         (2%Z, [("Supplier", Str (lit "Roof Co"));
                ("Description", Str (lit "Slates"));
                ("Classification", Str (lit "Building Improvement"));
                ("combined", Str (lit "Supplier: Roof Co; Description: Slates"))]) ] |}.

(** A set that yields its values in order of first appearance. *)
Definition set_list (l : list cell) : list cell :=
  rev (nodup cell_eq_dec (rev l)).

Definition randint (k : nat) (a b : Z) : Z := (b - Z.of_nat k)%Z.

(** A transaction table whose second row has no supplier. *)
Definition with_missing_supplier : frame :=
  {| columns := ["Supplier"; "Description"; "Transaction value (£)"];
     rows :=
       [ (0%Z, [("Supplier", Str (lit "ACME Ltd"));
                ("Description", Str (lit "Bricks"));
                ("Transaction value (£)", Int 30000)]);
         (1%Z, [("Supplier", NaN);
                ("Description", Str (lit "Cabling"));
                ("Transaction value (£)", Int 45000)]) ] |}.

Definition Series_str (_ : string) (s : series cell) : str :=
  lit "0    30000" ++ [10%N] ++ lit "1    45000" ++ [10%N]
  ++ lit "Name: Transaction value, dtype: int64".

(** A completion endpoint that answers nothing. *)
Definition silent_completion (_ : list call) (_ : CompletionRequest)
  : result CompletionResponse :=
  Ok {| choices := [] |}.

(** [sort_index] as an insertion sort on the labels. *)
Fixpoint insert_label (x : Z * row) (rs : list (Z * row)) : list (Z * row) :=
  match rs with
  | [] => [x]
  | y :: rs' => if (fst x <=? fst y)%Z then x :: rs else y :: insert_label x rs'
  end.

Definition sort_index (rs : list (Z * row)) : list (Z * row) :=
  fold_right insert_label [] rs.

(** A join that lays the pairs out in the order of the left rows. *)
Definition join_order (rs : list row) : list row := rs.

(** 103 transactions of one supplier. *)
Definition many_transactions : frame :=
  {| columns := ["Supplier"; "Description"; "Transaction value (£)"];
     rows := map (fun i => (Z.of_nat i,
                            [("Supplier", Str (lit "ACME Ltd"));
                             ("Description", Str (lit "Bricks"));
                             ("Transaction value (£)", Int 30000)]))
                 (seq 0 103) |}.

(** A row of the validation set with the model's answer. *)
Definition answered : row :=
  [("prompt", Str (lit "Supplier: ACME Ltd; Description: Bricks"));
   ("completion", Int 3);
   ("pred", Str (lit " 3"))].

(** A training file whose second line is not a prepared example, and no
    validation file. *)
Definition unprepared_world : World :=
  {| calls := [];
     files := [("train.jsonl", TextFile [lit "0"; lit "not prepared"])];
     stdout := [] |}.

(** Reviews whose combined column was never filled for the second row. *)
Definition broken_reviews : frame :=
  {| columns := ["Time"; "combined"];
     rows := [ (0%Z, [("Time", Int 1351123200);
                      ("combined", Str Samples.short_text)]);
               (1%Z, [("Time", Int 1351123201); ("combined", NaN)]) ] |}.

(** The three-review table as [read_csv] returns it. *)
Definition raw_reviews : frame :=
  Samples.parse_csv (Some 0%nat) Samples.input_csv.

Definition loaded_reviews : frame :=
  Samples.frame_of (ObtainDataset.combine raw_reviews).

End MoreSamples.

(* ===================================================================== *)
(** * Facts *)
(* ===================================================================== *)

(** ** Rows and frames *)

Lemma lookup_set_same c v r : lookup c (set c v r) = Some v.
Proof.
  induction r as [|[k w] r IH]; simpl.
  - now rewrite String.eqb_refl.
  - destruct (String.eqb c k) eqn:E; simpl; rewrite E; auto.
Qed.

Lemma lookup_set_other c k v r : c <> k -> lookup k (set c v r) = lookup k r.
Proof.
  intros Hne. induction r as [|[k' w] r IH]; simpl.
  - destruct (String.eqb_spec k c); congruence.
  - destruct (String.eqb_spec c k'); simpl.
    + subst k'. destruct (String.eqb_spec k c); congruence.
    + destruct (String.eqb k k'); auto.
Qed.

Lemma at_set_same c v r : at_ c (set c v r) = v.
Proof. unfold at_. now rewrite lookup_set_same. Qed.

Lemma at_set_other c k v r : c <> k -> at_ k (set c v r) = at_ k r.
Proof. intros H. unfold at_. now rewrite lookup_set_other. Qed.

Lemma lookup_del_other c k r : c <> k -> lookup k (del c r) = lookup k r.
Proof.
  intros Hne. induction r as [|[k' w] r IH]; simpl; auto.
  destruct (String.eqb_spec c k'); simpl.
  - subst k'. destruct (String.eqb_spec k c); congruence.
  - destruct (String.eqb k k'); auto.
Qed.

Lemma lookup_del_same c r : lookup c (del c r) = None.
Proof.
  induction r as [|[k' w] r IH]; simpl; auto.
  destruct (String.eqb_spec c k'); simpl; auto.
  destruct (String.eqb_spec c k'); congruence.
Qed.

Lemma at_del_other c k r : c <> k -> at_ k (del c r) = at_ k r.
Proof. intros H. unfold at_. now rewrite lookup_del_other. Qed.

Lemma lookup_projection (cs : list string) (f : string -> cell) c :
  lookup c (map (fun k => (k, f k)) cs)
  = if existsb (String.eqb c) cs then Some (f c) else None.
Proof.
  induction cs as [|k cs IH]; simpl; auto.
  destruct (String.eqb_spec c k); simpl; subst; auto.
Qed.

Lemma at_project (cs : list string) r c :
  In c cs -> at_ c (project cs r) = at_ c r.
Proof.
  intros Hin. unfold at_ at 1. unfold project. rewrite lookup_projection.
  replace (existsb (String.eqb c) cs) with true; auto.
  symmetry. apply existsb_exists. exists c. split; auto. apply String.eqb_refl.
Qed.

(** Assigning a Series computed from the frame's own rows is a row-wise
    update. *)
Lemma assign_map {A} c (ix : A -> Z) (f : A -> cell) (g : A -> row) l :
  assign c (map (fun a => (ix a, f a)) l) (map (fun a => (ix a, g a)) l)
  = map (fun a => (ix a, set c (f a) (g a))) l.
Proof.
  induction l as [|a l IH]; simpl; auto. now rewrite IH.
Qed.

Lemma assign_own c (f : Z * row -> cell) rs :
  assign c (map (fun ir => (fst ir, f ir)) rs) rs
  = map (fun ir => (fst ir, set c (f ir) (snd ir))) rs.
Proof.
  induction rs as [|[i r] rs IH]; simpl; auto. now rewrite IH.
Qed.

Lemma add_own {A} (f g : A -> textval) (ix : A -> Z) (l : list A) :
  add (map (fun a => (ix a, f a)) l) (map (fun a => (ix a, g a)) l)
  = map (fun a => (ix a,
                   match f a, g a with
                   | Some x, Some y => Some (x ++ y)
                   | _, _ => None
                   end)) l.
Proof.
  induction l as [|a l IH]; simpl; auto. now rewrite IH.
Qed.

Lemma apply_own {A B C} (h : B -> C) (f : A -> B) (ix : A -> Z) (l : list A) :
  apply h (map (fun a => (ix a, f a)) l) = map (fun a => (ix a, h (f a))) l.
Proof.
  unfold apply. rewrite map_map. reflexivity.
Qed.

Lemma last_n_incl {A} n (l : list A) x : In x (last_n n l) -> In x l.
Proof.
  unfold last_n. intros H.
  rewrite <- (firstn_skipn (length l - n) l). apply in_or_app. now right.
Qed.

Lemma last_n_length {A} n (l : list A) : length (last_n n l) = Nat.min n (length l).
Proof. unfold last_n. rewrite length_skipn. lia. Qed.

Lemma last_n_split {A} n (l : list A) :
  l = firstn (length l - n) l ++ last_n n l.
Proof. unfold last_n. now rewrite firstn_skipn. Qed.

Arguments lit : simpl never.
Arguments strip : simpl never.
Arguments str_int : simpl never.

(** ** The [combined] column *)

Lemma select_ok cs df df' :
  select cs df = Ok df' ->
  columns df' = cs
  /\ rows df' = map (fun ir => (fst ir, project cs (snd ir))) (rows df).
Proof.
  unfold select. destruct (find _ cs); [discriminate|].
  intros H. injection H as <-. split; reflexivity.
Qed.


Lemma getattr_ok c df :
  has_column c df = true -> getattr c df = Ok (column c df).
Proof. unfold getattr. now intros ->. Qed.

Lemma getitem_ok c df :
  has_column c df = true -> getitem c df = Ok (column c df).
Proof. unfold getitem. now intros ->. Qed.



(** The transactions notebook: every row keeps its label and its cells, and
    its [combined] cell ends in one and the same text, the stripped printout
    of the whole value column. *)
Lemma transactions_combined Series_str df out :
  Transactions.combine Series_str df = Ok out ->
  let value := strip (Series_str "Transaction value (£)"
                                 (column "Transaction value (£)" df)) in
  columns out = (if has_column "combined" df then columns df
                 else columns df ++ ["combined"])
  /\ rows out
     = map (fun ir =>
              (fst ir,
               set "combined"
                 (match at_ "Supplier" (snd ir), at_ "Description" (snd ir) with
                  | Str s, Str d => Str (Spec.transaction_text s d value)
                  | _, _ => NaN
                  end)
                 (snd ir)))
           (rows df).
Proof.
  unfold Transactions.combine, getitem.
  destruct (has_column "Supplier" df); cbn [bindR]; [|discriminate].
  destruct (has_column "Description" df); cbn [bindR]; [|discriminate].
  destruct (has_column "Transaction value (£)" df); cbn [bindR]; [|discriminate].
  intros H. injection H as <-. split; [reflexivity|].
  unfold setitem; cbn [rows].
  unfold str_strip, radd, add_lit, column.
  rewrite !apply_own, add_own, !apply_own, assign_own.
  apply map_ext. intros [i r]; cbn [fst snd].
  destruct (at_ "Supplier" r); try reflexivity;
    destruct (at_ "Description" r); try reflexivity.
  cbn [option_map cell_of_text]. unfold Spec.transaction_text.
  now rewrite <- !app_assoc.
Qed.

(** C1 (transactions half, at a two-row table).  Whatever text the library
    prints for a whole Series, both rows of the table receive that one text
    after ["; Value: "]; so the [combined] column is not, row by row,
    the concatenation ending in the string of that row's own value (30000 for
    the first row, 45000 for the second). *)
Theorem transactions_combined_value_not_per_row :
  forall Series_str : string -> series cell -> str,
  exists out value,
    Transactions.combine Series_str Samples.two_transactions = Ok out
    /\ map (fun ir => at_ "combined" (snd ir)) (rows out)
       = [Str (Spec.transaction_text (lit "ACME Ltd") (lit "Bricks") value);
          Str (Spec.transaction_text (lit "Bolt plc") (lit "Cabling") value)]
    /\ map (fun ir => at_ "combined" (snd ir)) (rows out)
       <> [Str (Spec.transaction_text (lit "ACME Ltd") (lit "Bricks")
                  (str_int 30000));
           Str (Spec.transaction_text (lit "Bolt plc") (lit "Cabling")
                  (str_int 45000))].
Proof.
  intros Series_str.
  destruct (Transactions.combine Series_str Samples.two_transactions)
    as [out|e] eqn:E.
  2: { exfalso. revert E. unfold Transactions.combine, getitem.
       change (has_column "Supplier" Samples.two_transactions) with true.
       change (has_column "Description" Samples.two_transactions) with true.
       change (has_column "Transaction value (£)" Samples.two_transactions)
         with true.
       cbn [bindR]. discriminate. }
  apply transactions_combined in E. destruct E as [_ Hrows].
  exists out.
  exists (strip (Series_str "Transaction value (£)"
                   (column "Transaction value (£)" Samples.two_transactions))).
  split; [reflexivity|].
  assert (Hcol : map (fun ir => at_ "combined" (snd ir)) (rows out)
       = [Str (Spec.transaction_text (lit "ACME Ltd") (lit "Bricks")
                 (strip (Series_str "Transaction value (£)"
                    (column "Transaction value (£)" Samples.two_transactions))));
          Str (Spec.transaction_text (lit "Bolt plc") (lit "Cabling")
                 (strip (Series_str "Transaction value (£)"
                    (column "Transaction value (£)" Samples.two_transactions))))]).
  { rewrite Hrows. cbn [Samples.two_transactions rows map fst snd].
    rewrite !at_set_same. reflexivity. }
  split; [exact Hcol|].
  rewrite Hcol. intros H. injection H as H1 H2.
  unfold Spec.transaction_text in H1, H2.
  repeat apply app_inv_head in H1. repeat apply app_inv_head in H2.
  rewrite H1 in H2. vm_compute in H2. discriminate.
Qed.

(** ** The stand-in sort is a sort *)

Lemma key_leb_spec a b : key_leb a b = true <-> key_le a b.
Proof.
  destruct a, b; simpl; try tauto; try (split; [discriminate|tauto]).
  apply Z.leb_le.
Qed.

Lemma key_le_total a b : key_le a b \/ key_le b a.
Proof. destruct a, b; simpl; auto; lia. Qed.

Lemma key_le_trans a b c : key_le a b -> key_le b c -> key_le a c.
Proof. destruct a, b, c; simpl; auto; try tauto; lia. Qed.

Lemma insert_row_perm c x rs : Permutation (Samples.insert_row c x rs) (x :: rs).
Proof.
  induction rs as [|y rs IH]; simpl; auto.
  destruct (key_leb _ _); auto.
  rewrite IH. apply perm_swap.
Qed.

Lemma sample_sort_perm c rs : Permutation (Samples.sort_rows c rs) rs.
Proof.
  induction rs as [|x rs IH]; simpl; auto.
  rewrite insert_row_perm. now constructor.
Qed.

Lemma insert_row_sorted c x rs :
  sorted_by c rs -> sorted_by c (Samples.insert_row c x rs).
Proof.
  unfold sorted_by. induction 1 as [|y rs Hs IH Hy]; simpl.
  - repeat constructor.
  - destruct (key_leb _ _) eqn:E.
    + apply key_leb_spec in E. constructor; [now constructor|].
      constructor; auto.
      eapply Forall_impl; [|exact Hy].
      intros z Hz. eapply key_le_trans; eauto.
    + assert (Hyx : key_le (at_ c (snd y)) (at_ c (snd x))).
      { destruct (key_le_total (at_ c (snd x)) (at_ c (snd y))) as [H|H]; auto.
        apply key_leb_spec in H. congruence. }
      constructor; auto.
      eapply Permutation_Forall; [symmetry; apply insert_row_perm|].
      constructor; auto.
Qed.

Lemma sample_sort_sorted c rs : sorted_by c (Samples.sort_rows c rs).
Proof.
  induction rs as [|x rs IH]; simpl.
  - constructor.
  - now apply insert_row_sorted.
Qed.

(** ** Subsampling *)

Section SubsampleFacts.

Variable sort_rows : string -> list (Z * row) -> list (Z * row).
Variable tiktoken_encode : string -> str -> list N.

Local Abbreviation subsample := (ObtainDataset.subsample sort_rows tiktoken_encode).
Local Abbreviation count_tokens := (ObtainDataset.count_tokens tiktoken_encode).
Local Abbreviation encode := (tiktoken_encode ObtainDataset.embedding_encoding).

Lemma count_tokens_series (s t : series cell) :
  Lib.applyR count_tokens s = Ok t ->
  t = apply (Spec.n_tokens_cell encode) s
  /\ Forall (fun iv => exists x, snd iv = Str x) s.
Proof.
  revert t. induction s as [|[i c] s IH]; intros t; cbn [Lib.applyR].
  - intros H. injection H as <-. split; [reflexivity | constructor].
  - destruct c; cbn [ObtainDataset.count_tokens bindR]; try discriminate.
    destruct (Lib.applyR count_tokens s) as [t'|]; cbn [bindR]; [|discriminate].
    intros H. injection H as <-.
    destruct (IH t' eq_refl) as [-> Hall]. split.
    + reflexivity.
    + constructor; [eexists; reflexivity | assumption].
Qed.

Lemma count_tokens_total (s : series cell) :
  Forall (fun iv => exists x, snd iv = Str x) s ->
  Lib.applyR count_tokens s = Ok (apply (Spec.n_tokens_cell encode) s).
Proof.
  induction 1 as [|[i c] s [x Hx] _ IH]; cbn [Lib.applyR]; [reflexivity|].
  cbn [snd] in Hx. subst c. cbn [ObtainDataset.count_tokens bindR].
  rewrite IH. reflexivity.
Qed.

(** What [subsample] returns, row by row. *)
Lemma subsample_rows df out :
  subsample df = Ok out ->
  let cut := last_n (ObtainDataset.top_n * 2) (sort_rows "Time" (rows df)) in
  Forall (fun ir => exists x, at_ "combined" (snd ir) = Str x) cut
  /\ rows out
     = last_n ObtainDataset.top_n
         (filter (fun ir => ObtainDataset.short_enough (snd ir))
                 (map (Spec.with_tokens encode) cut)).
Proof.
  unfold ObtainDataset.subsample, Lib.sort_values.
  destruct (has_column "Time" df) eqn:HT; cbn [bindR]; [|discriminate].
  unfold drop, tail, has_column at 1. cbn [columns rows].
  change (existsb (String.eqb "Time") (columns df)) with (has_column "Time" df).
  rewrite HT. cbn [bindR].
  unfold getattr. destruct (has_column "combined" _); cbn [bindR]; [|discriminate].
  unfold column at 1. cbn [rows]. rewrite map_map. cbn [fst snd].
  destruct (Lib.applyR _ _) as [toks|] eqn:Htok; cbn [bindR]; [|discriminate].
  apply count_tokens_series in Htok. destruct Htok as [-> Hall].
  intros H. injection H as <-. cbn zeta. split.
  - rewrite Forall_map in Hall. eapply Forall_impl; [|exact Hall].
    intros [i r] [x Hx]. cbn [snd] in *. exists x.
    rewrite at_del_other in Hx by discriminate. exact Hx.
  - unfold where_, setitem. cbn [rows]. f_equal. f_equal.
    rewrite apply_own.
    rewrite (assign_map "n_tokens" fst
               (fun x => Spec.n_tokens_cell encode
                           (at_ "combined" (del "Time" (snd x))))
               (fun x => del "Time" (snd x))).
    apply map_ext. intros [i r]. unfold Spec.with_tokens. cbn [fst snd].
    now rewrite at_del_other by discriminate.
Qed.

Lemma with_tokens_combined (ir : Z * row) :
  at_ "combined" (snd (Spec.with_tokens encode ir)) = at_ "combined" (snd ir).
Proof.
  unfold Spec.with_tokens. cbn [snd].
  rewrite at_set_other by discriminate. now rewrite at_del_other by discriminate.
Qed.

Lemma with_tokens_n_tokens (ir : Z * row) x :
  at_ "combined" (snd ir) = Str x ->
  at_ "n_tokens" (snd (Spec.with_tokens encode ir))
  = Int (Z.of_nat (length (encode x))).
Proof.
  intros Hx. unfold Spec.with_tokens. cbn [snd].
  rewrite at_set_same, Hx. reflexivity.
Qed.

(** Within the cut, the token filter keeps exactly the rows that are not
    too long. *)
Lemma kept_plus_dropped (cut : list (Z * row)) :
  Forall (fun ir => exists x, at_ "combined" (snd ir) = Str x) cut ->
  (length (filter (fun ir => ObtainDataset.short_enough (snd ir))
                  (map (Spec.with_tokens encode) cut))
   + length (filter (fun ir => Spec.too_long encode 8000 (snd ir)) cut)
   = length cut)%nat.
Proof.
  induction 1 as [|ir cut [x Hx] _ IH]; [reflexivity|].
  cbn [map filter]. unfold ObtainDataset.short_enough at 1.
  rewrite (with_tokens_n_tokens ir x Hx).
  unfold Spec.too_long at 1. rewrite Hx.
  unfold ObtainDataset.max_tokens.
  destruct (Z.leb_spec (Z.of_nat (length (encode x))) 8000);
    destruct (Z.ltb_spec 8000 (Z.of_nat (length (encode x))));
    cbn [length]; lia.
Qed.

(** The subsampling cell returns as soon as the frame has the two columns
    and every combined cell is a string. *)
Lemma subsample_total df :
  has_column "Time" df = true ->
  has_column "combined" df = true ->
  Forall (fun ir => exists x, at_ "combined" (snd ir) = Str x)
         (last_n (ObtainDataset.top_n * 2) (sort_rows "Time" (rows df))) ->
  exists out, subsample df = Ok out.
Proof.
  intros HT HC Hall.
  unfold ObtainDataset.subsample, Lib.sort_values. rewrite HT. cbn [bindR].
  unfold drop, tail, has_column at 1. cbn [columns rows].
  change (existsb (String.eqb "Time") (columns df)) with (has_column "Time" df).
  rewrite HT. cbn [bindR].
  assert (Hc : has_column "combined"
                 {| columns := filter (fun k => negb (String.eqb "Time" k))
                                      (columns df);
                    rows := map (fun ir => (fst ir, del "Time" (snd ir)))
                                (last_n (ObtainDataset.top_n * 2)
                                        (sort_rows "Time" (rows df))) |} = true).
  { unfold has_column in *. cbn [columns].
    apply existsb_exists in HC. destruct HC as (k & Hk & Heq).
    apply existsb_exists. exists k. split; [|exact Heq].
    apply filter_In. split; [exact Hk|].
    apply String.eqb_eq in Heq. subst k. reflexivity. }
  rewrite (getattr_ok _ _ Hc). cbn [bindR].
  rewrite count_tokens_total; [cbn [bindR]; eexists; reflexivity|].
  unfold column. cbn [rows]. rewrite map_map, Forall_map.
  eapply Forall_impl; [|exact Hall].
  intros [i r] [x Hx]. cbn [fst snd] in *. exists x.
  now rewrite at_del_other by discriminate.
Qed.

(** C2.  Every row that is left after the subsampling cell carries, in
    [n_tokens], the length of the encoding of its own combined text, and
    that length is at most [max_tokens] = 8000; a row over the limit is
    not in the result. *)
Theorem subsample_within_token_limit df out :
  subsample df = Ok out ->
  forall i r, In (i, r) (rows out) ->
  exists x,
    at_ "combined" r = Str x
    /\ at_ "n_tokens" r = Int (Z.of_nat (length (encode x)))
    /\ (Z.of_nat (length (encode x)) <= 8000)%Z
    /\ Spec.too_long encode 8000 r = false.
Proof.
  intros Hsub i r Hin.
  destruct (subsample_rows df out Hsub) as [Hall Hrows].
  rewrite Hrows in Hin. apply last_n_incl in Hin.
  apply filter_In in Hin. destruct Hin as [Hin Hshort]. cbn [snd] in Hshort.
  apply in_map_iff in Hin. destruct Hin as [ir0 [Heq Hin0]].
  rewrite Forall_forall in Hall. destruct (Hall ir0 Hin0) as [x Hx].
  pose proof (with_tokens_combined ir0) as Hc.
  pose proof (with_tokens_n_tokens ir0 x Hx) as Hn.
  rewrite Heq in Hc, Hn. cbn [snd] in Hc, Hn.
  exists x. rewrite Hc.
  unfold ObtainDataset.short_enough in Hshort. rewrite Hn in Hshort.
  unfold ObtainDataset.max_tokens in Hshort. apply Z.leb_le in Hshort.
  repeat split; auto.
  unfold Spec.too_long. rewrite Hc, Hx. apply Z.ltb_ge. exact Hshort.
Qed.

Hypothesis sort_rows_perm : forall c rs, Permutation (sort_rows c rs) rs.
Hypothesis sort_rows_sorted : forall c rs, sorted_by c (sort_rows c rs).

Lemma sorted_by_app c (older cut : list (Z * row)) :
  sorted_by c (older ++ cut) ->
  forall a b, In a older -> In b cut ->
              key_le (at_ c (snd a)) (at_ c (snd b)).
Proof.
  unfold sorted_by. induction older as [|o older IH]; cbn [app].
  - intros _ a b [].
  - intros Hs a b [<-|Ha] Hb.
    + apply StronglySorted_inv in Hs. destruct Hs as [_ Hall].
      rewrite Forall_forall in Hall. apply Hall. apply in_or_app. now right.
    + apply StronglySorted_inv in Hs. destruct Hs as [Hs _]. now apply IH.
Qed.

(** C9.  The subsampling cell sorts by [Time], keeps the last 2000 rows
    (every row before them is at most as recent and plays no part), filters
    those by token count and keeps the last 1000 of what is left.  So the
    result has at most 1000 rows, and fewer than 1000 as soon as more than
    1000 rows of the cut are over the token limit. *)
Theorem subsample_at_most_top_n df out :
  subsample df = Ok out ->
  sort_rows "Time" (rows df) = Spec.older sort_rows df ++ Spec.cut sort_rows df
  /\ Permutation (Spec.older sort_rows df ++ Spec.cut sort_rows df) (rows df)
  /\ length (Spec.cut sort_rows df) = Nat.min 2000 (len df)
  /\ (forall a b, In a (Spec.older sort_rows df) ->
                  In b (Spec.cut sort_rows df) ->
                  key_le (at_ "Time" (snd a)) (at_ "Time" (snd b)))
  /\ rows out
     = last_n 1000
         (filter (fun ir => ObtainDataset.short_enough (snd ir))
                 (map (Spec.with_tokens encode) (Spec.cut sort_rows df)))
  /\ (len out <= 1000)%nat
  /\ ((1000 < length (filter (fun ir => Spec.too_long encode 8000 (snd ir))
                             (Spec.cut sort_rows df)))%nat
      -> (len out < 1000)%nat).
Proof.
  intros Hsub.
  destruct (subsample_rows df out Hsub) as [Hall Hrows].
  change (ObtainDataset.top_n * 2)%nat with 2000%nat in Hall, Hrows.
  change ObtainDataset.top_n with 1000%nat in Hrows.
  fold (Spec.cut sort_rows df) in Hall, Hrows.
  assert (Hsplit : sort_rows "Time" (rows df)
                   = Spec.older sort_rows df ++ Spec.cut sort_rows df).
  { unfold Spec.older, Spec.cut.
    rewrite <- (Permutation_length (sort_rows_perm "Time" (rows df))).
    apply last_n_split. }
  assert (Hlen : length (Spec.cut sort_rows df) = Nat.min 2000 (len df)).
  { unfold Spec.cut. rewrite last_n_length. unfold len. f_equal.
    apply Permutation_length, sort_rows_perm. }
  split; [exact Hsplit|]. split.
  { rewrite <- Hsplit. apply sort_rows_perm. }
  split; [exact Hlen|]. split.
  { apply sorted_by_app. rewrite <- Hsplit. apply sort_rows_sorted. }
  split; [exact Hrows|].
  pose proof (kept_plus_dropped _ Hall) as Hsum.
  unfold len. rewrite Hrows, last_n_length. split; [lia|].
  intros Hdrop. lia.
Qed.

End SubsampleFacts.

(** The subsampling theorems on sample tables. *)

Lemma sample_subsample_ok :
  ObtainDataset.subsample Samples.sort_rows Samples.encode Samples.few_reviews
  = Ok Samples.subsampled.
Proof. vm_compute. reflexivity. Qed.

Lemma subsample_within_token_limit_witness :
  len Samples.subsampled = 2%nat
  /\ exists x,
       at_ "combined" Samples.last_row = Str x
       /\ at_ "n_tokens" Samples.last_row
          = Int (Z.of_nat (length (Samples.encode ObtainDataset.embedding_encoding x)))
       /\ (Z.of_nat (length (Samples.encode ObtainDataset.embedding_encoding x))
           <= 8000)%Z
       /\ Spec.too_long (Samples.encode ObtainDataset.embedding_encoding) 8000
            Samples.last_row = false.
Proof.
  split; [vm_compute; reflexivity|].
  apply (subsample_within_token_limit Samples.sort_rows Samples.encode
           Samples.few_reviews Samples.subsampled sample_subsample_ok
           2%Z Samples.last_row).
  vm_compute. right. left. reflexivity.
Defined.

Lemma many_reviews_combined :
  Forall (fun ir => exists x, at_ "combined" (snd ir) = Str x)
         (last_n (ObtainDataset.top_n * 2)
                 (Samples.sort_rows "Time" (rows Samples.many_reviews))).
Proof.
  apply Forall_forall. intros ir Hin. apply last_n_incl in Hin.
  apply (Permutation_in _ (sample_sort_perm "Time" _)) in Hin.
  unfold Samples.many_reviews in Hin. cbn [rows] in Hin.
  apply in_map_iff in Hin. destruct Hin as (i & <- & _).
  unfold Samples.review. cbn [snd]. eexists. reflexivity.
Qed.

Lemma subsample_at_most_top_n_witness :
  exists out,
    ObtainDataset.subsample Samples.sort_rows Samples.encode Samples.many_reviews
    = Ok out
    /\ (len out < 1000)%nat.
Proof.
  destruct (subsample_total Samples.sort_rows Samples.encode
              Samples.many_reviews eq_refl eq_refl many_reviews_combined)
    as [out Hout].
  exists out. split; [exact Hout|].
  destruct (subsample_at_most_top_n Samples.sort_rows Samples.encode
              sample_sort_perm sample_sort_sorted
              Samples.many_reviews out Hout)
    as (_ & _ & _ & _ & _ & _ & Hfewer).
  apply Hfewer. apply Nat.ltb_lt. vm_compute. reflexivity.
Defined.

(** ** Requests for embeddings *)

Section EmbeddingFacts.

Variable embedding_endpoint : list call -> str -> string -> result (list float).

Local Abbreviation get_embedding := (Lib.get_embedding embedding_endpoint).
Local Abbreviation embed_series := (Lib.embed_series embedding_endpoint).





End EmbeddingFacts.

(** ** Columns after an assignment *)









(** ** The embedding cell of [Obtain_dataset] *)

Section EmbedStepFacts.

Variable repr_float : float -> str.
Variable embedding_endpoint : list call -> str -> string -> result (list float).

Local Abbreviation embed_and_save :=
  (ObtainDataset.embed_and_save repr_float embedding_endpoint).
Local Abbreviation embed_series := (Lib.embed_series embedding_endpoint).
Local Abbreviation model := ObtainDataset.embedding_model.
Local Abbreviation saved df := (CsvFile (Lib.csv_of_frame repr_float df)).







End EmbedStepFacts.





(** ** [str.replace] *)

Lemma replace_cons o old' new c s' :
  replace (o :: old') new (c :: s')
  = if startswith (o :: old') (c :: s')
    then new ++ replace (o :: old') new (skipn (length old') s')
    else c :: replace (o :: old') new s'.
Proof.
  simp replace. destruct (startswith (o :: old') (c :: s')); reflexivity.
Qed.

Lemma startswith_self p b : startswith p (p ++ b) = true.
Proof.
  induction p as [|a p IH]; [reflexivity|].
  cbn [startswith app]. now rewrite N.eqb_refl, IH.
Qed.

Lemma startswith_longer p x y :
  (length p <= length x)%nat -> startswith p (x ++ y) = startswith p x.
Proof.
  revert x. induction p as [|a p IH]; intros x Hlen; [reflexivity|].
  destruct x as [|b x]; cbn [length] in Hlen; [lia|].
  cbn [startswith app]. rewrite IH by lia. reflexivity.
Qed.

Lemma skipn_own_length {A} (l b : list A) : skipn (length l) (l ++ b) = b.
Proof. induction l; [reflexivity | assumption]. Qed.

(** A text that does not contain [old] is left as it is. *)
Lemma replace_absent old new s :
  contains old s = false -> replace old new s = s.
Proof.
  destruct old as [|o old'].
  { destruct s; discriminate. }
  induction s as [|c s' IH]; intros H.
  - now simp replace.
  - cbn [contains] in H. apply orb_false_iff in H. destruct H as [Hs Hc].
    rewrite replace_cons, Hs. now rewrite IH.
Qed.

Lemma removelast_length {A} (l : list A) :
  l <> [] -> S (length (removelast l)) = length l.
Proof.
  intros Hne. destruct l as [|d l]; [congruence|].
  rewrite (app_removelast_last d Hne) at 2.
  rewrite length_app. cbn [length]. lia.
Qed.

(** No occurrence of [old] starts inside [a]: then [old] is not a prefix of
    [a ++ old ++ b] unless [a] is empty. *)
Lemma startswith_later old c a b :
  old <> [] ->
  startswith old ((c :: a) ++ removelast old) = false ->
  startswith old (c :: (a ++ old ++ b)) = false.
Proof.
  intros Hne Hs. destruct old as [|d old']; [congruence|].
  assert (Hsplit : c :: (a ++ (d :: old') ++ b)
                   = ((c :: a) ++ removelast (d :: old'))
                       ++ [last (d :: old') d] ++ b).
  { rewrite (app_removelast_last d Hne) at 1.
    rewrite <- !app_assoc. reflexivity. }
  rewrite Hsplit, startswith_longer; [exact Hs|].
  rewrite length_app. pose proof (removelast_length (d :: old') Hne).
  cbn [length] in *. lia.
Qed.

(** The leftmost occurrence of [old] is replaced, and the replacement goes
    on after it. *)
Lemma replace_first old new a b :
  contains old (a ++ removelast old) = false ->
  replace old new (a ++ old ++ b) = a ++ new ++ replace old new b.
Proof.
  destruct old as [|o old'].
  { destruct (a ++ removelast []); discriminate. }
  induction a as [|c a IH]; intros H.
  - change ([] ++ (o :: old') ++ b) with (o :: (old' ++ b)).
    rewrite replace_cons.
    change (o :: (old' ++ b)) with ((o :: old') ++ b).
    rewrite startswith_self. now rewrite skipn_own_length.
  - change (((c :: a) ++ removelast (o :: old')))
      with (c :: (a ++ removelast (o :: old'))) in H.
    cbn [contains] in H.
    apply orb_false_iff in H. destruct H as [Hs Hc].
    change ((c :: a) ++ (o :: old') ++ b) with (c :: (a ++ (o :: old') ++ b)).
    rewrite replace_cons.
    rewrite (startswith_later (o :: old') c a b) by (discriminate || exact Hs).
    rewrite (IH Hc). reflexivity.
Qed.

(** [s.replace('\n', '')] drops every newline and nothing else. *)
Lemma replace_newline s :
  replace [10%N] [] s = filter (fun c => negb (N.eqb c 10)) s.
Proof.
  induction s as [|c s IH]; [now simp replace|].
  rewrite replace_cons. cbn [startswith length skipn filter app].
  rewrite N.eqb_sym. destruct (N.eqb c 10); cbn [andb negb].
  - exact IH.
  - f_equal. exact IH.
Qed.

(** ** [request_completion] and [classify_transaction] *)

Section CompletionFacts.

Variable repr_float : float -> str.
Variable completion_endpoint :
  list call -> CompletionRequest -> result CompletionResponse.

Local Abbreviation request_completion :=
  (Transactions.request_completion completion_endpoint).
Local Abbreviation classify_transaction :=
  (Transactions.classify_transaction repr_float completion_endpoint).
Local Abbreviation py_str := (Transactions.py_str repr_float).

Lemma request_completion_run p w :
  request_completion p w
  = (completion_endpoint (calls w) (Spec.request_for p),
     log_call (CompletionCall (Spec.request_for p)) w).
Proof. reflexivity. Qed.

(** One run of [classify_transaction] on a row that has the three fields. *)
Lemma classify_transaction_run transaction template s d v w :
  lookup "Supplier" transaction = Some (Str s) ->
  lookup "Description" transaction = Some (Str d) ->
  lookup "Transaction value (£)" transaction = Some v ->
  let p := Spec.filled_prompt template s d (py_str v) in
  classify_transaction transaction template w
  = (match completion_endpoint (calls w) (Spec.request_for p) with
     | Ok response =>
         match choices response with
         | c :: _ => Ok (replace Transactions.newline [] (text c))
         | [] => Raise IndexError
         end
     | Raise e => Raise e
     end,
     log_call (CompletionCall (Spec.request_for p)) w).
Proof.
  intros Hs Hd Hv p.
  unfold Transactions.classify_transaction, Transactions.row_getitem.
  rewrite Hs, Hd, Hv. cbn [bindR Transactions.as_str].
  unfold bind at 1. unfold lift at 1.
  unfold bind at 1. unfold lift at 1.
  unfold bind at 1. unfold lift at 1.
  unfold bind at 1. rewrite request_completion_run.
  fold (Spec.filled_prompt template s d (py_str v)). fold p.
  destruct (completion_endpoint (calls w) (Spec.request_for p)) as [response|e];
    [|reflexivity].
  unfold bind, lift, ret. destruct (choices response); reflexivity.
Qed.


End CompletionFacts.

Example zero_shot_prompt_filled :
  Spec.filled_prompt Transactions.zero_shot_prompt
    (lit "ACME Ltd") (lit "Bricks") (str_int 30000)
  = lit "You are a data expert working for the National Library of Scotland. "
    ++ Transactions.newline
    ++ lit "You are analysing all transactions over " ++ Transactions.pound
    ++ lit "25,000 in value and classifying them into one of five categories."
    ++ Transactions.newline
    ++ lit "The five categories are Building Improvement, Literature & Archive, Utility Bills, Professional Services and Software/IT."
    ++ Transactions.newline
    ++ lit "If you can't tell what it is, say Could not classify"
    ++ Transactions.newline
    ++ lit "                      " ++ Transactions.newline
    ++ lit "Transaction:" ++ Transactions.newline
    ++ lit "                      " ++ Transactions.newline
    ++ lit "Supplier: ACME Ltd" ++ Transactions.newline
    ++ lit "Description: Bricks" ++ Transactions.newline
    ++ lit "Value: 30000" ++ Transactions.newline
    ++ lit "                      " ++ Transactions.newline
    ++ lit "The classification is:".
Proof. vm_compute. reflexivity. Qed.


(** ** Exceptions of the endpoints and of the classification library *)


Section ErrorFacts.

Variable repr_float : float -> str.
Variable completion_endpoint :
  list call -> CompletionRequest -> result CompletionResponse.
Variable embedding_endpoint : list call -> str -> string -> result (list float).
Variable train_test_split :
  list cell -> series cell -> Q -> N ->
  result (list cell * list cell * series cell * series cell).
Variable classifier : Type.
Variable fit : nat -> list cell -> series cell -> result classifier.
Variable predict : classifier -> list cell -> result (list cell).
Variable predict_proba : classifier -> list cell -> result (list (list float)).
Variable classification_report : series cell -> list cell -> result str.

Local Abbreviation request_completion :=
  (Transactions.request_completion completion_endpoint).
Local Abbreviation classify_transaction :=
  (Transactions.classify_transaction repr_float completion_endpoint).
Local Abbreviation classify_all :=
  (Transactions.classify_all repr_float completion_endpoint).
Local Abbreviation py_str := (Transactions.py_str repr_float).
Local Abbreviation embed_and_save :=
  (ObtainDataset.embed_and_save repr_float embedding_endpoint).
Local Abbreviation embed_series := (Lib.embed_series embedding_endpoint).
Local Abbreviation model := ObtainDataset.embedding_model.
Local Abbreviation fit_and_report :=
  (Classifier.fit_and_report train_test_split classifier fit predict
     predict_proba classification_report).
Local Abbreviation split_of X y :=
  (train_test_split (Classifier.values X) y (2 # 10)%Q 42%N).






End ErrorFacts.


(** ** [check_finetune_classes] *)

Section ClassCheckFacts.

Variable json_loads : str -> result Transactions.json.

Local Abbreviation collect_classes := (Transactions.collect_classes json_loads).
Local Abbreviation check_finetune_classes :=
  (Transactions.check_finetune_classes json_loads).
Local Abbreviation completions := (Spec.completions json_loads).
Local Abbreviation add_all ks acc :=
  (fold_left (fun a k => Transactions.set_add k a) ks acc).

Lemma collect_classes_fold json_list ks :
  completions json_list = Ok ks ->
  forall acc, collect_classes json_list acc = Ok (add_all ks acc).
Proof.
  revert ks. induction json_list as [|l ls IH]; intros ks H acc.
  - injection H as <-. reflexivity.
  - cbn [Spec.completions Transactions.collect_classes] in H |- *.
    destruct (json_loads l) as [j|]; cbn [bindR] in H |- *; [|discriminate].
    destruct (Transactions.json_getitem "completion" j) as [c|];
      cbn [bindR] in H |- *; [|discriminate].
    destruct (Transactions.hashable c) as [k|]; cbn [bindR] in H |- *;
      [|discriminate].
    destruct (completions ls) as [ks'|]; cbn [bindR] in H; [|discriminate].
    injection H as <-. cbn [fold_left]. now apply IH.
Qed.

Lemma set_add_In k acc x :
  In x (Transactions.set_add k acc) <-> x = k \/ In x acc.
Proof.
  unfold Transactions.set_add.
  destruct (in_dec Transactions.key_eq_dec k acc) as [Hin|Hnin].
  - split; [now right | intros [->|H]; assumption].
  - rewrite in_app_iff. cbn [In]. intuition.
Qed.

Lemma set_add_NoDup k acc : NoDup acc -> NoDup (Transactions.set_add k acc).
Proof.
  intros Hnd. unfold Transactions.set_add.
  destruct (in_dec Transactions.key_eq_dec k acc) as [Hin|Hnin]; [assumption|].
  apply NoDup_app; [assumption | repeat constructor; intros [] |].
  intros x Hx [<-|[]]. contradiction.
Qed.

Lemma add_all_In ks acc x : In x (add_all ks acc) <-> In x acc \/ In x ks.
Proof.
  revert acc. induction ks as [|k ks IH]; intros acc; cbn [fold_left In].
  - tauto.
  - rewrite IH, set_add_In. intuition.
Qed.

Lemma add_all_NoDup ks acc : NoDup acc -> NoDup (add_all ks acc).
Proof.
  revert acc. induction ks as [|k ks IH]; intros acc Hnd; cbn [fold_left].
  - assumption.
  - apply IH. now apply set_add_NoDup.
Qed.

(** The set built by the loop has as many members as the file has distinct
    completions. *)
Lemma add_all_distinct ks : length (add_all ks []) = Spec.distinct ks.
Proof.
  unfold Spec.distinct. apply Permutation_length. apply NoDup_Permutation.
  - apply add_all_NoDup. constructor.
  - apply NoDup_nodup.
  - intros x. rewrite add_all_In, nodup_In. cbn [In]. tauto.
Qed.

(** C8.  When both files are there and every line has a hashable
    ['completion'], [check_finetune_classes] prints the two line counts and
    then one verdict, and the verdict is ['All good'] exactly when the two
    files have the same number of distinct completions; which completions
    they are plays no part. *)
Theorem check_finetune_classes_compares_counts
  train_file valid_file w train_lines valid_lines train_ks valid_ks :
  find_file train_file (files w) = Some (TextFile train_lines) ->
  find_file valid_file (files w) = Some (TextFile valid_lines) ->
  completions train_lines = Ok train_ks ->
  completions valid_lines = Ok valid_ks ->
  exists verdict,
    check_finetune_classes train_file valid_file w
    = (Ok tt,
       {| calls := calls w;
          files := files w;
          stdout := stdout w
                    ++ [str_int (Z.of_nat (length train_lines));
                        str_int (Z.of_nat (length valid_lines));
                        verdict] |})
    /\ (verdict = lit "All good"
        \/ verdict = lit "Classes do not match, please prepare data again")
    /\ (verdict = lit "All good"
        <-> Spec.distinct train_ks = Spec.distinct valid_ks).
Proof.
  intros Ht Hv Htk Hvk.
  unfold Transactions.check_finetune_classes, Transactions.read_lines.
  unfold bind, read_file, print, lift, ret. cbn [files calls stdout].
  rewrite Ht, Hv.
  rewrite (collect_classes_fold train_lines train_ks Htk).
  rewrite (collect_classes_fold valid_lines valid_ks Hvk).
  rewrite !add_all_distinct.
  destruct (Nat.eqb_spec (Spec.distinct train_ks) (Spec.distinct valid_ks))
    as [Heq|Hne].
  - exists (lit "All good"). cbn [calls files stdout].
    rewrite <- !app_assoc. cbn [app].
    split; [reflexivity|]. split; [now left|]. tauto.
  - exists (lit "Classes do not match, please prepare data again").
    cbn [calls files stdout]. rewrite <- !app_assoc. cbn [app].
    split; [reflexivity|]. split; [now right|].
    split; [|contradiction]. intros H. vm_compute in H. discriminate.
Qed.

End ClassCheckFacts.

Lemma check_finetune_classes_compares_counts_witness :
  exists train_ks valid_ks,
    Spec.completions Samples.json_loads [lit "0"; lit "1"; lit "0"] = Ok train_ks
    /\ Spec.completions Samples.json_loads [lit "2"; lit "3"] = Ok valid_ks
    /\ (forall k, In k train_ks -> ~ In k valid_ks)
    /\ Transactions.check_finetune_classes Samples.json_loads
         "train.jsonl" "valid.jsonl" Samples.prepared_world
       = (Ok tt,
          {| calls := [];
             files := files Samples.prepared_world;
             stdout := [lit "3"; lit "2"; lit "All good"] |}).
Proof.
  exists [Transactions.KStr (lit " 0"); Transactions.KStr (lit " 1");
          Transactions.KStr (lit " 0")],
         [Transactions.KStr (lit " 2"); Transactions.KStr (lit " 3")].
  split; [reflexivity|]. split; [reflexivity|]. split.
  - intros k Hin Hin'. cbn [In] in Hin, Hin'.
    destruct Hin as [<-|[<-|[<-|[]]]]; destruct Hin' as [H|[H|[]]];
      vm_compute in H; discriminate.
  - destruct (check_finetune_classes_compares_counts Samples.json_loads
                "train.jsonl" "valid.jsonl" Samples.prepared_world
                [lit "0"; lit "1"; lit "0"] [lit "2"; lit "3"]
                [Transactions.KStr (lit " 0"); Transactions.KStr (lit " 1");
                 Transactions.KStr (lit " 0")]
                [Transactions.KStr (lit " 2"); Transactions.KStr (lit " 3")]
                eq_refl eq_refl eq_refl eq_refl)
      as (verdict & Hrun & _ & Hiff).
    rewrite Hrun. destruct Hiff as [_ Hgood].
    rewrite (Hgood eq_refl). reflexivity.
Defined.


(** ** The whole [Obtain_dataset] notebook *)

Lemma combine_columns raw df :
  ObtainDataset.combine raw = Ok df ->
  columns df = Spec.review_columns ++ ["combined"].
Proof.
  unfold ObtainDataset.combine. fold Spec.review_columns.
  destruct (select Spec.review_columns raw) as [sel|] eqn:Hsel;
    cbn [bindR]; [|discriminate].
  apply select_ok in Hsel. destruct Hsel as [Hcols _].
  rewrite !getattr_ok by (unfold has_column, dropna; cbn [columns];
                          rewrite Hcols; reflexivity).
  cbn [bindR]. intros H. injection H as <-.
  unfold setitem, has_column, dropna. cbn [columns]. rewrite Hcols. reflexivity.
Qed.

Section RunFacts.

Variable parse_csv : option nat -> csv -> frame.
Variable sort_rows : string -> list (Z * row) -> list (Z * row).
Variable tiktoken_encode : string -> str -> list N.
Variable repr_float : float -> str.
Variable embedding_endpoint : list call -> str -> string -> result (list float).

Hypothesis sort_rows_perm : forall c rs, Permutation (sort_rows c rs) rs.

Local Abbreviation subsample := (ObtainDataset.subsample sort_rows tiktoken_encode).
Local Abbreviation encode := (tiktoken_encode ObtainDataset.embedding_encoding).
Local Abbreviation embed_and_save :=
  (ObtainDataset.embed_and_save repr_float embedding_endpoint).
Local Abbreviation run :=
  (ObtainDataset.run parse_csv sort_rows tiktoken_encode repr_float
     embedding_endpoint).





End RunFacts.



(* ===================================================================== *)
(** * More facts *)
(* ===================================================================== *)

(** ** Lists *)

Lemma last_n_map {A B} (f : A -> B) n (l : list A) :
  last_n n (map f l) = map f (last_n n l).
Proof.
  unfold last_n. rewrite length_map. apply skipn_map.
Qed.

Lemma StronglySorted_app_inv {A} (R : A -> A -> Prop) l1 l2 :
  StronglySorted R (l1 ++ l2) ->
  StronglySorted R l1 /\ StronglySorted R l2
  /\ (forall a b, In a l1 -> In b l2 -> R a b).
Proof.
  induction l1 as [|x l1 IH]; cbn [app]; intros H.
  - repeat split; [constructor | assumption | intros a b []].
  - apply StronglySorted_inv in H. destruct H as [Hs Hall].
    destruct (IH Hs) as (H1 & H2 & H3).
    rewrite Forall_app in Hall. destruct Hall as [Ha1 Ha2].
    repeat split; auto.
    + constructor; assumption.
    + intros a b [<-|Ha] Hb; [|now apply H3].
      rewrite Forall_forall in Ha2. now apply Ha2.
Qed.

Lemma StronglySorted_filter {A} (R : A -> A -> Prop) (p : A -> bool) l :
  StronglySorted R l -> StronglySorted R (filter p l).
Proof.
  induction 1 as [|x l Hs IH Hall]; cbn [filter]; [constructor|].
  destruct (p x); [|assumption].
  constructor; [assumption|].
  rewrite Forall_forall in *. intros y Hy. apply filter_In in Hy. now apply Hall.
Qed.

(** ** More on the subsampling cell *)

Section MoreSubsampleFacts.

Variable sort_rows : string -> list (Z * row) -> list (Z * row).
Variable tiktoken_encode : string -> str -> list N.

Local Abbreviation subsample := (ObtainDataset.subsample sort_rows tiktoken_encode).
Local Abbreviation encode := (tiktoken_encode ObtainDataset.embedding_encoding).
Local Abbreviation cut := (Spec.cut sort_rows).
Local Abbreviation eligible := (Derived.eligible sort_rows encode).

Lemma filter_with_tokens (l : list (Z * row)) :
  Forall (fun ir => exists x, at_ "combined" (snd ir) = Str x) l ->
  filter (fun ir => ObtainDataset.short_enough (snd ir))
         (map (Spec.with_tokens encode) l)
  = map (Spec.with_tokens encode)
        (filter (fun ir => negb (Spec.too_long encode 8000 (snd ir))) l).
Proof.
  induction 1 as [|ir l [x Hx] _ IH]; [reflexivity|].
  cbn [map filter]. rewrite IH.
  unfold ObtainDataset.short_enough at 1.
  rewrite (with_tokens_n_tokens tiktoken_encode ir x Hx).
  replace (Spec.too_long encode 8000 (snd ir))
    with (8000 <? Z.of_nat (length (encode x)))%Z
    by (unfold Spec.too_long; now rewrite Hx).
  unfold ObtainDataset.max_tokens.
  destruct (Z.leb_spec (Z.of_nat (length (encode x))) 8000);
    destruct (Z.ltb_spec 8000 (Z.of_nat (length (encode x))));
    cbn [negb map]; try reflexivity; lia.
Qed.

(** The result is made of the last 1000 eligible rows of the cut. *)
Lemma subsample_eligible df out :
  subsample df = Ok out ->
  rows out = map (Spec.with_tokens encode) (last_n 1000 (eligible df)).
Proof.
  intros Hsub.
  destruct (subsample_rows sort_rows tiktoken_encode df out Hsub) as [Hall Hrows].
  change (ObtainDataset.top_n * 2)%nat with 2000%nat in Hall, Hrows.
  change ObtainDataset.top_n with 1000%nat in Hrows.
  fold (Spec.cut sort_rows df) in Hall, Hrows.
  rewrite Hrows, (filter_with_tokens _ Hall). apply last_n_map.
Qed.

(** X1.  The number of rows the subsampling cell returns is exact: the
    number of rows of the 2000-row cut that are within the token limit, capped
    at 1000. *)
Theorem subsample_size df out :
  subsample df = Ok out ->
  len out = Nat.min 1000 (length (eligible df))
  /\ (length (eligible df)
      + length (filter (fun ir => Spec.too_long encode 8000 (snd ir)) (cut df))
      = length (cut df))%nat.
Proof.
  intros Hsub. split.
  - unfold len. rewrite (subsample_eligible df out Hsub).
    now rewrite length_map, last_n_length.
  - unfold Derived.eligible. clear Hsub.
    induction (Spec.cut sort_rows df) as [|ir l IH]; [reflexivity|].
    cbn [filter]. destruct (Spec.too_long encode 8000 (snd ir));
      cbn [negb length]; lia.
Qed.

Hypothesis sort_rows_sorted : forall c rs, sorted_by c (sort_rows c rs).

(** X2.  The rows returned are the most recent eligible ones, oldest first:
    they are the last 1000 eligible rows of the cut in ascending [Time], and
    every eligible row left out is at most as recent as every row kept. *)
Theorem subsample_keeps_most_recent df out :
  subsample df = Ok out ->
  rows out = map (Spec.with_tokens encode) (last_n 1000 (eligible df))
  /\ map fst (rows out) = map fst (last_n 1000 (eligible df))
  /\ sorted_by "Time" (last_n 1000 (eligible df))
  /\ (forall a b,
        In a (firstn (length (eligible df) - 1000) (eligible df)) ->
        In b (last_n 1000 (eligible df)) ->
        key_le (at_ "Time" (snd a)) (at_ "Time" (snd b))).
Proof.
  intros Hsub.
  pose proof (subsample_eligible df out Hsub) as Hrows.
  assert (Hsorted : sorted_by "Time" (eligible df)).
  { unfold Derived.eligible, sorted_by. apply StronglySorted_filter.
    unfold Spec.cut.
    pose proof (sort_rows_sorted "Time" (rows df)) as Hs.
    rewrite (last_n_split 2000 (sort_rows "Time" (rows df))) in Hs.
    now apply StronglySorted_app_inv in Hs. }
  unfold sorted_by in Hsorted.
  rewrite (last_n_split 1000 (eligible df)) in Hsorted.
  apply StronglySorted_app_inv in Hsorted. destruct Hsorted as (_ & Hkept & Hcross).
  split; [exact Hrows|]. split.
  { rewrite Hrows, map_map. apply map_ext. intros [i r]. reflexivity. }
  split; [exact Hkept | exact Hcross].
Qed.

End MoreSubsampleFacts.

Lemma applyR_raises {A B} (f : A -> result B) (s : series A) :
  (forall a e, f a = Raise e -> e = TypeError) ->
  Exists (fun iv => exists e, f (snd iv) = Raise e) s ->
  Lib.applyR f s = Raise TypeError.
Proof.
  intros Honly. induction 1 as [[i a] s [e He]|[i a] s _ IH]; cbn [Lib.applyR].
  - cbn [snd] in He. rewrite He. cbn [bindR]. now rewrite (Honly a e He).
  - destruct (f a) as [b|e] eqn:E; cbn [bindR].
    + now rewrite IH.
    + now rewrite (Honly a e E).
Qed.

Lemma has_column_drop_other c k df df' :
  drop c df = Ok df' -> c <> k -> has_column k df' = has_column k df.
Proof.
  unfold drop. destruct (has_column c df); [|discriminate].
  intros H Hne. injection H as <-. unfold has_column. cbn [columns].
  induction (columns df) as [|x l IH]; [reflexivity|].
  cbn [filter existsb]. destruct (String.eqb_spec c x) as [->|Hx]; cbn [negb].
  - rewrite IH. destruct (String.eqb_spec k x); [congruence | reflexivity].
  - cbn [existsb]. now rewrite IH.
Qed.

Section SubsampleErrors.

Variable sort_rows : string -> list (Z * row) -> list (Z * row).
Variable tiktoken_encode : string -> str -> list N.

Local Abbreviation subsample := (ObtainDataset.subsample sort_rows tiktoken_encode).

(** X3.  What the subsampling cell raises: [KeyError 'Time'] on a frame
    without a Time column; [AttributeError 'combined'] when Time is there and
    combined is not; [TypeError] when a row of the 2000-row cut has a
    combined cell that is not a string. *)
Theorem subsample_raises df :
  (has_column "Time" df = false -> subsample df = Raise (KeyError "Time"))
  /\ (has_column "Time" df = true -> has_column "combined" df = false ->
      subsample df = Raise (AttributeError "combined"))
  /\ (has_column "Time" df = true -> has_column "combined" df = true ->
      Exists (fun ir => Derived.is_str (at_ "combined" (snd ir)) = false)
             (last_n 2000 (sort_rows "Time" (rows df))) ->
      subsample df = Raise TypeError).
Proof.
  unfold ObtainDataset.subsample, Lib.sort_values.
  split; [|split].
  - intros ->. reflexivity.
  - intros HT HC. rewrite HT. cbn [bindR].
    destruct (drop "Time" _) as [d|e] eqn:Hd.
    + cbn [bindR]. unfold getattr.
      rewrite (has_column_drop_other "Time" "combined" _ d Hd) by discriminate.
      unfold tail, has_column at 1. cbn [columns].
      fold (has_column "combined" df). now rewrite HC.
    + unfold drop, tail, has_column at 1 in Hd. cbn [columns] in Hd.
      fold (has_column "Time" df) in Hd. rewrite HT in Hd. discriminate.
  - intros HT HC Hbad. rewrite HT. cbn [bindR].
    destruct (drop "Time" _) as [d|e] eqn:Hd.
    + cbn [bindR]. unfold getattr.
      rewrite (has_column_drop_other "Time" "combined" _ d Hd) by discriminate.
      unfold tail, has_column at 1. cbn [columns].
      fold (has_column "combined" df). rewrite HC. cbn [bindR].
      rewrite applyR_raises; [reflexivity | |].
      * intros [| | |] e; cbn [ObtainDataset.count_tokens]; congruence.
      * unfold drop in Hd. destruct (has_column "Time" _); [|discriminate].
        injection Hd as <-. unfold column, tail. cbn [rows].
        change (ObtainDataset.top_n * 2)%nat with 2000%nat.
        rewrite map_map. apply Exists_exists.
        apply Exists_exists in Hbad. destruct Hbad as ([i r] & Hin & Hr).
        exists (i, at_ "combined" (del "Time" r)). split.
        -- apply in_map_iff. exists (i, r). split; [reflexivity | exact Hin].
        -- cbn [snd] in *. rewrite at_del_other by discriminate.
           destruct (at_ "combined" r); try discriminate;
             eexists; reflexivity.
    + unfold drop, tail, has_column at 1 in Hd. cbn [columns] in Hd.
      fold (has_column "Time" df) in Hd. rewrite HT in Hd. discriminate.
Qed.

Hypothesis sort_rows_perm : forall c rs, Permutation (sort_rows c rs) rs.



End SubsampleErrors.

(** ** More on the load cell *)

Lemma complete_project cs r : complete cs (project cs r) = complete cs r.
Proof.
  unfold complete.
  assert (H : forall l, incl l cs ->
            forallb (fun c => negb (isna (at_ c (project cs r)))) l
            = forallb (fun c => negb (isna (at_ c r))) l).
  { induction l as [|c l IH]; intros Hincl; [reflexivity|].
    cbn [forallb]. rewrite at_project by (apply Hincl; now left).
    rewrite IH; [reflexivity|]. intros k Hk. apply Hincl. now right. }
  apply H. apply incl_refl.
Qed.

(** X5.  The load cell keeps exactly the input rows that have no missing
    value in the six selected columns, in input order and under their own
    labels, and its result has these six columns and [combined]: any other
    input column is gone. *)
Theorem load_keeps_complete_rows raw df :
  ObtainDataset.combine raw = Ok df ->
  map fst (rows df)
  = map fst (filter (fun ir => complete Spec.review_columns (snd ir)) (rows raw))
  /\ len df = length (filter (fun ir => complete Spec.review_columns (snd ir))
                            (rows raw))
  /\ columns df = Spec.review_columns ++ ["combined"].
Proof.
  intros Hdf.
  assert (Hlabels : map fst (rows df)
            = map fst (filter (fun ir => complete Spec.review_columns (snd ir))
                              (rows raw))).
  { revert Hdf. unfold ObtainDataset.combine. fold Spec.review_columns.
    destruct (select Spec.review_columns raw) as [sel|] eqn:Hsel;
      cbn [bindR]; [|discriminate].
    apply select_ok in Hsel. destruct Hsel as [Hcols Hrows].
    rewrite !getattr_ok by (unfold has_column, dropna; cbn [columns];
                            rewrite Hcols; reflexivity).
    cbn [bindR]. intros Hdf. injection Hdf as <-.
    unfold setitem; cbn [rows].
    unfold str_strip, radd, add_lit, column.
    rewrite !apply_own, add_own, apply_own, assign_own, map_map. cbn [fst].
    unfold dropna; cbn [rows columns]. rewrite Hcols, Hrows. clear Hrows.
    induction (rows raw) as [|[i r] l IH]; [reflexivity|].
    cbn [map filter fst snd]. rewrite complete_project.
    destruct (complete Spec.review_columns r); cbn [map fst]; now rewrite IH. }
  split; [exact Hlabels|]. split.
  - unfold len. rewrite <- (length_map fst (rows df)), Hlabels. apply length_map.
  - exact (combine_columns raw df Hdf).
Qed.



(** The facts above on sample tables. *)

Lemma subsample_size_witness :
  len Samples.subsampled
  = Nat.min 1000
      (length (Derived.eligible Samples.sort_rows
                 (Samples.encode ObtainDataset.embedding_encoding)
                 Samples.few_reviews))
  /\ (length (Derived.eligible Samples.sort_rows
                (Samples.encode ObtainDataset.embedding_encoding)
                Samples.few_reviews)
      + length (filter (fun ir => Spec.too_long
                                    (Samples.encode ObtainDataset.embedding_encoding)
                                    8000 (snd ir))
                       (Spec.cut Samples.sort_rows Samples.few_reviews))
      = length (Spec.cut Samples.sort_rows Samples.few_reviews))%nat.
Proof.
  exact (subsample_size Samples.sort_rows Samples.encode Samples.few_reviews
           Samples.subsampled sample_subsample_ok).
Defined.

Lemma subsample_keeps_most_recent_witness :
  map fst (rows Samples.subsampled)
  = map fst (last_n 1000
               (Derived.eligible Samples.sort_rows
                  (Samples.encode ObtainDataset.embedding_encoding)
                  Samples.few_reviews))
  /\ map fst (rows Samples.subsampled) = [0%Z; 2%Z].
Proof.
  destruct (subsample_keeps_most_recent Samples.sort_rows Samples.encode
              sample_sort_sorted Samples.few_reviews Samples.subsampled
              sample_subsample_ok) as (_ & Hlabels & _).
  split; [exact Hlabels|]. vm_compute. reflexivity.
Defined.

Lemma subsample_raises_witness :
  ObtainDataset.subsample Samples.sort_rows Samples.encode Samples.two_reviews
  = Raise (KeyError "Time")
  /\ ObtainDataset.subsample Samples.sort_rows Samples.encode
       MoreSamples.raw_reviews
     = Raise (AttributeError "combined")
  /\ ObtainDataset.subsample Samples.sort_rows Samples.encode
       MoreSamples.broken_reviews
     = Raise TypeError.
Proof.
  split; [|split].
  - apply (subsample_raises Samples.sort_rows Samples.encode Samples.two_reviews).
    reflexivity.
  - apply (subsample_raises Samples.sort_rows Samples.encode
             MoreSamples.raw_reviews); reflexivity.
  - apply (subsample_raises Samples.sort_rows Samples.encode
             MoreSamples.broken_reviews); [reflexivity | reflexivity |].
    apply Exists_cons_tl. apply Exists_cons_hd. reflexivity.
Defined.


Lemma load_keeps_complete_rows_witness :
  map fst (rows MoreSamples.loaded_reviews) = [0%Z; 1%Z]
  /\ len MoreSamples.raw_reviews = 3%nat
  /\ len MoreSamples.loaded_reviews = 2%nat.
Proof.
  destruct (load_keeps_complete_rows MoreSamples.raw_reviews
              MoreSamples.loaded_reviews) as (Hlabels & Hlen & _).
  - vm_compute. reflexivity.
  - split; [rewrite Hlabels; vm_compute; reflexivity|].
    split; [reflexivity|]. rewrite Hlen. vm_compute. reflexivity.
Defined.


(** ** What the steps do to the world *)

Lemma only_sent_refl w : Derived.only_sent w w [].
Proof. unfold Derived.only_sent. now rewrite app_nil_r. Qed.

Lemma only_sent_trans w1 w2 w3 s1 s2 :
  Derived.only_sent w1 w2 s1 -> Derived.only_sent w2 w3 s2 ->
  Derived.only_sent w1 w3 (s1 ++ s2).
Proof.
  unfold Derived.only_sent. intros (Hc1 & Hf1 & Ho1) (Hc2 & Hf2 & Ho2).
  rewrite Hc2, Hc1, Hf2, Hf1, Ho2, Ho1, app_assoc. auto.
Qed.

Lemma mapM_cons {A B} (f : A -> M B) a l w :
  mapM f (a :: l) w
  = match f a w with
    | (Ok b, w1) =>
        match mapM f l w1 with
        | (Ok bs, w2) => (Ok (b :: bs), w2)
        | (Raise e, w2) => (Raise e, w2)
        end
    | (Raise e, w1) => (Raise e, w1)
    end.
Proof.
  cbn [mapM]. unfold bind at 1. destruct (f a w) as [[b|e] w1]; [|reflexivity].
  unfold bind at 1. destruct (mapM f l w1) as [[bs|e] w2]; reflexivity.
Qed.


Section EffectFacts.

Variable parse_csv : option nat -> csv -> frame.
Variable sort_rows : string -> list (Z * row) -> list (Z * row).
Variable tiktoken_encode : string -> str -> list N.
Variable repr_float : float -> str.
Variable embedding_endpoint : list call -> str -> string -> result (list float).

Local Abbreviation embed_series := (Lib.embed_series embedding_endpoint).
Local Abbreviation embed_and_save :=
  (ObtainDataset.embed_and_save repr_float embedding_endpoint).
Local Abbreviation run :=
  (ObtainDataset.run parse_csv sort_rows tiktoken_encode repr_float
     embedding_endpoint).
Local Abbreviation model := ObtainDataset.embedding_model.







End EffectFacts.

(** A loop whose body sends at most one request: the requests sent are those
    of the first elements, in order, one each; a loop that runs to the end
    has sent one per element. *)
Lemma mapM_trace {A B} (f : A -> M B) (P : A -> call -> Prop)
  (Q : A -> B -> Prop) :
  (forall a w, exists sent,
      Derived.only_sent w (snd (f a w)) sent
      /\ (length sent <= 1)%nat /\ Forall (P a) sent
      /\ (forall b, fst (f a w) = Ok b -> length sent = 1%nat /\ Q a b)) ->
  forall l w, exists sent,
      Derived.only_sent w (snd (mapM f l w)) sent
      /\ (length sent <= length l)%nat
      /\ Forall2 P (firstn (length sent) l) sent
      /\ (forall bs, fst (mapM f l w) = Ok bs ->
                     length sent = length l /\ Forall2 Q l bs).
Proof.
  intros Hstep. induction l as [|a l IH]; intros w.
  - exists []. cbn [mapM]. unfold ret. cbn [snd fst length firstn].
    split; [apply only_sent_refl|]. split; [lia|]. split; [constructor|].
    intros bs H. injection H as <-. split; [reflexivity | constructor].
  - rewrite mapM_cons.
    destruct (Hstep a w) as (s1 & H1 & Hl1 & HP1 & Hok1).
    destruct (f a w) as [[b|e] w1]; cbn [snd fst] in *.
    + destruct (IH w1) as (s2 & H2 & Hl2 & HP2 & Hok2).
      destruct (Hok1 b eq_refl) as [Hlen1 HQ].
      destruct s1 as [|c [|c' s1]]; try discriminate.
      exists ([c] ++ s2).
      assert (HP : Forall2 P (firstn (length ([c] ++ s2)) (a :: l)) ([c] ++ s2)).
      { cbn [app length firstn]. constructor; [now inversion HP1 | exact HP2]. }
      destruct (mapM f l w1) as [[bs|e] w2]; cbn [snd fst] in *.
      * split; [eapply only_sent_trans; eassumption|].
        split; [cbn [app length]; lia|]. split; [exact HP|].
        intros bs' H. injection H as <-.
        destruct (Hok2 bs eq_refl) as [Hlen2 HF].
        split; [cbn [app length]; lia | now constructor].
      * split; [eapply only_sent_trans; eassumption|].
        split; [cbn [app length]; lia|]. split; [exact HP|].
        intros bs' H. discriminate.
    + exists s1. split; [assumption|].
      split; [cbn [length]; lia|]. split.
      * destruct s1 as [|c [|c' s1]]; cbn [length firstn] in *; try lia.
        -- constructor.
        -- constructor; [now inversion HP1 | constructor].
      * intros bs' H. discriminate.
Qed.

Lemma Forall2_firstn_In {A B} (P : A -> B -> Prop) n (l : list A) (m : list B) :
  Forall2 P (firstn n l) m ->
  Forall (fun b => exists a, In a l /\ P a b) m.
Proof.
  revert l m. induction n as [|n IH]; intros l m H.
  - cbn [firstn] in H. inversion H. constructor.
  - destruct l as [|a l]; cbn [firstn] in H; inversion H; subst.
    + constructor.
    + constructor.
      * exists a. split; [now left | assumption].
      * eapply Forall_impl; [|apply (IH l); eassumption].
        intros b (a' & Hin & HP). exists a'. split; [now right | assumption].
Qed.

(** ** The completion calls of the transactions notebook *)

Section ClassifyFacts.

Variable repr_float : float -> str.
Variable completion_endpoint :
  list call -> CompletionRequest -> result CompletionResponse.

Local Abbreviation classify_transaction :=
  (Transactions.classify_transaction repr_float completion_endpoint).
Local Abbreviation classify_all :=
  (Transactions.classify_all repr_float completion_endpoint).
Local Abbreviation zero_shot_classification :=
  (Transactions.zero_shot_classification repr_float completion_endpoint).
Local Abbreviation py_str := (Transactions.py_str repr_float).
Local Abbreviation request_of := (Derived.request_of repr_float).

Lemma fields_of_some transaction s d v :
  Derived.fields_of transaction = Some (s, d, v) ->
  lookup "Supplier" transaction = Some (Str s)
  /\ lookup "Description" transaction = Some (Str d)
  /\ lookup "Transaction value (£)" transaction = Some v.
Proof.
  unfold Derived.fields_of.
  destruct (lookup "Supplier" transaction) as [[| |s'|]|]; try discriminate.
  destruct (lookup "Description" transaction) as [[| |d'|]|]; try discriminate.
  destruct (lookup "Transaction value (£)" transaction) as [v'|];
    try discriminate.
  intros H. injection H as -> -> ->. auto.
Qed.

Lemma classify_transaction_early transaction template w :
  Derived.fields_of transaction = None ->
  exists e, classify_transaction transaction template w = (Raise e, w)
            /\ (e = TypeError
                \/ e = KeyError "Supplier" \/ e = KeyError "Description"
                \/ e = KeyError "Transaction value (£)").
Proof.
  unfold Derived.fields_of, Transactions.classify_transaction,
    Transactions.row_getitem.
  unfold bind at 1. unfold lift at 1.
  destruct (lookup "Supplier" transaction) as [[| |s|]|];
    cbn [bindR Transactions.as_str];
    try (intros _; eexists; split; [reflexivity | tauto]).
  unfold bind at 1. unfold lift at 1.
  destruct (lookup "Description" transaction) as [[| |d|]|];
    cbn [bindR Transactions.as_str];
    try (intros _; eexists; split; [reflexivity | tauto]).
  unfold bind at 1. unfold lift at 1.
  destruct (lookup "Transaction value (£)" transaction) as [v|];
    [discriminate|].
  intros _. eexists. split; [reflexivity | tauto].
Qed.

(** X9.  [classify_transaction] sends a request exactly when the row holds
    the three fields with a string as supplier and as description: then it
    logs one request, for the template filled with them; otherwise it raises
    a [KeyError] naming a missing field or a [TypeError], and the world is as
    it was: nothing was sent. *)
Theorem classify_transaction_sends_iff_fields transaction template w :
  match Derived.fields_of transaction with
  | Some (s, d, v) =>
      snd (classify_transaction transaction template w)
      = log_call (CompletionCall
                    (Spec.request_for
                       (Spec.filled_prompt template s d (py_str v)))) w
  | None =>
      exists e, classify_transaction transaction template w = (Raise e, w)
                /\ (e = TypeError
                    \/ e = KeyError "Supplier" \/ e = KeyError "Description"
                    \/ e = KeyError "Transaction value (£)")
  end.
Proof.
  destruct (Derived.fields_of transaction) as [[[s d] v]|] eqn:E.
  - destruct (fields_of_some transaction s d v E) as (Hs & Hd & Hv).
    now rewrite (classify_transaction_run repr_float completion_endpoint
                   transaction template s d v w Hs Hd Hv).
  - now apply classify_transaction_early.
Qed.

(** X10.  When the endpoint answers with no choice at all,
    [classify_transaction] raises [IndexError]; the request has been sent,
    once. *)
Theorem classify_transaction_no_choice transaction template s d v w response :
  Derived.fields_of transaction = Some (s, d, v) ->
  completion_endpoint (calls w)
    (Spec.request_for (Spec.filled_prompt template s d (py_str v)))
  = Ok response ->
  choices response = [] ->
  classify_transaction transaction template w
  = (Raise IndexError,
     log_call (CompletionCall
                 (Spec.request_for
                    (Spec.filled_prompt template s d (py_str v)))) w).
Proof.
  intros E Hresp Hnone.
  destruct (fields_of_some transaction s d v E) as (Hs & Hd & Hv).
  rewrite (classify_transaction_run repr_float completion_endpoint
             transaction template s d v w Hs Hd Hv).
  cbv zeta. now rewrite Hresp, Hnone.
Qed.

Lemma replace_newline_clean s : ~ In 10%N (replace Transactions.newline [] s).
Proof.
  unfold Transactions.newline. rewrite replace_newline.
  intros H. apply filter_In in H. destruct H as [_ H].
  now rewrite N.eqb_refl in H.
Qed.

(** One row of the batch. *)
Lemma classify_row_step template (ir : Z * row) w :
  exists sent,
    Derived.only_sent w
      (snd ((c <- classify_transaction (snd ir) template ;;
             ret (fst ir, Str c)) w)) sent
    /\ (length sent <= 1)%nat
    /\ Forall (request_of template (snd ir)) sent
    /\ (forall b,
          fst ((c <- classify_transaction (snd ir) template ;;
                ret (fst ir, Str c)) w) = Ok b ->
          length sent = 1%nat
          /\ fst b = fst ir
          /\ exists c, snd b = Str c /\ ~ In 10%N c).
Proof.
  unfold bind.
  destruct (Derived.fields_of (snd ir)) as [[[s d] v]|] eqn:E.
  - destruct (fields_of_some (snd ir) s d v E) as (Hs & Hd & Hv).
    rewrite (classify_transaction_run repr_float completion_endpoint
               (snd ir) template s d v w Hs Hd Hv).
    cbv zeta.
    exists [CompletionCall
              (Spec.request_for (Spec.filled_prompt template s d (py_str v)))].
    assert (HP : Forall (request_of template (snd ir))
                   [CompletionCall
                      (Spec.request_for
                         (Spec.filled_prompt template s d (py_str v)))]).
    { constructor; [|constructor]. exists s, d, v. split; [exact E | reflexivity]. }
    assert (Hsent : forall c, Derived.only_sent w (log_call c w) [c])
      by (intros c; unfold Derived.only_sent, log_call; cbn; auto).
    destruct (completion_endpoint _ _) as [response|e].
    + destruct (choices response) as [|c cs]; unfold ret; cbn [snd fst length].
      * split; [apply Hsent|]. split; [lia|]. split; [exact HP|].
        intros b H. discriminate.
      * split; [apply Hsent|]. split; [lia|]. split; [exact HP|].
        intros b H. injection H as <-. cbn [fst snd].
        split; [reflexivity|]. split; [reflexivity|].
        eexists. split; [reflexivity | apply replace_newline_clean].
    + cbn [snd fst length]. split; [apply Hsent|]. split; [lia|].
      split; [exact HP|]. intros b H. discriminate.
  - destruct (classify_transaction_early (snd ir) template w E) as (e & -> & _).
    exists []. cbn [snd fst length]. split; [apply only_sent_refl|].
    split; [lia|]. split; [constructor|]. intros b H. discriminate.
Qed.

Lemma assign_labels (labels : series cell) (P : cell -> Prop) rs :
  Forall2 (fun ir b => fst b = fst ir /\ P (snd b)) rs labels ->
  Forall2 (fun ir jr =>
             fst jr = fst ir
             /\ P (at_ "Classification" (snd jr))
             /\ forall k, k <> "Classification" ->
                          at_ k (snd jr) = at_ k (snd ir))
          rs (assign "Classification" labels rs).
Proof.
  induction 1 as [|[i r] [j v] rs labels [_ HP] _ IH]; cbn [assign].
  - constructor.
  - constructor; [|exact IH]. cbn [fst snd] in *.
    split; [reflexivity|]. split.
    + now rewrite at_set_same.
    + intros k Hk. apply at_set_other. congruence.
Qed.

Lemma classify_all_trace template df w :
  exists sent,
    Derived.only_sent w (snd (classify_all template df w)) sent
    /\ (length sent <= len df)%nat
    /\ Forall2 (fun ir c => request_of template (snd ir) c)
         (firstn (length sent) (rows df)) sent
    /\ (forall out, fst (classify_all template df w) = Ok out ->
          length sent = len df /\ len out = len df).
Proof.
  unfold Transactions.classify_all.
  destruct (mapM_trace
              (fun ir => c <- classify_transaction (snd ir) template ;;
                         ret (fst ir, Str c))
              (fun ir c => request_of template (snd ir) c)
              (fun (ir : Z * row) (b : Z * cell) =>
                 fst b = fst ir /\ exists c, snd b = Str c /\ ~ In 10%N c)
              (fun ir w => classify_row_step template ir w)
              (rows df) w)
    as (sent & Hsent & Hlen & HP & Hok).
  exists sent. unfold bind.
  destruct (mapM _ (rows df) w) as [[labels|e] w1]; cbn [snd fst] in *.
  - unfold ret. cbn [snd fst]. split; [exact Hsent|]. split; [exact Hlen|].
    split; [exact HP|]. intros out H. injection H as <-.
    destruct (Hok labels eq_refl) as [Hl HQ]. split; [exact Hl|].
    pose proof (assign_labels labels
                  (fun v => exists c, v = Str c /\ ~ In 10%N c) (rows df) HQ)
      as HF.
    apply Forall2_length in HF. unfold len, setitem. cbn [rows]. now symmetry.
  - split; [exact Hsent|]. split; [exact Hlen|]. split; [exact HP|].
    intros out H. discriminate.
Qed.

(** X11.  The batch classification sends at most one request per row, for
    the rows from the first on, in row order, each for its own row's filled
    template, and touches neither the files nor the output.  If it returns,
    every row was sent, and the frame has the same rows under the same
    labels, each with a [Classification] that is a string free of newlines;
    the other cells read as before. *)
Theorem classify_all_one_request_per_row template df w :
  exists sent,
    Derived.only_sent w (snd (classify_all template df w)) sent
    /\ (length sent <= len df)%nat
    /\ Forall2 (fun ir c => request_of template (snd ir) c)
         (firstn (length sent) (rows df)) sent
    /\ (forall out, fst (classify_all template df w) = Ok out ->
          length sent = len df
          /\ Forall2 (fun ir jr =>
                        fst jr = fst ir
                        /\ (exists c, at_ "Classification" (snd jr) = Str c
                                      /\ ~ In 10%N c)
                        /\ forall k, k <> "Classification" ->
                                     at_ k (snd jr) = at_ k (snd ir))
               (rows df) (rows out)).
Proof.
  unfold Transactions.classify_all.
  destruct (mapM_trace
              (fun ir => c <- classify_transaction (snd ir) template ;;
                         ret (fst ir, Str c))
              (fun ir c => request_of template (snd ir) c)
              (fun (ir : Z * row) (b : Z * cell) =>
                 fst b = fst ir /\ exists c, snd b = Str c /\ ~ In 10%N c)
              (fun ir w => classify_row_step template ir w)
              (rows df) w)
    as (sent & Hsent & Hlen & HP & Hok).
  exists sent. unfold bind.
  destruct (mapM _ (rows df) w) as [[labels|e] w1]; cbn [snd fst] in *.
  - unfold ret. cbn [snd fst]. split; [exact Hsent|]. split; [exact Hlen|].
    split; [exact HP|]. intros out H. injection H as <-.
    destruct (Hok labels eq_refl) as [Hl HQ]. split; [exact Hl|].
    unfold setitem. cbn [rows].
    exact (assign_labels labels (fun v => exists c, v = Str c /\ ~ In 10%N c)
             (rows df) HQ).
  - split; [exact Hsent|]. split; [exact Hlen|]. split; [exact HP|].
    intros out H. discriminate.
Qed.


(** X12.  The zero-shot test classifies the first 25 transactions only: at
    most 25 requests are sent, each for one of the first 25 rows with the
    zero-shot template, and the frame returned has at most 25 rows. *)
Theorem zero_shot_classification_first_25 transactions w :
  exists sent,
    Derived.only_sent w (snd (zero_shot_classification transactions w)) sent
    /\ (length sent <= 25)%nat
    /\ Forall (fun c => exists ir,
                   In ir (firstn 25 (rows transactions))
                   /\ request_of Transactions.zero_shot_prompt (snd ir) c)
         sent
    /\ (forall out, fst (zero_shot_classification transactions w) = Ok out ->
          len out = Nat.min 25 (len transactions)
          /\ length sent = len out).
Proof.
  unfold Transactions.zero_shot_classification.
  destruct (classify_all_trace Transactions.zero_shot_prompt
              (iloc_to 25 transactions) w)
    as (sent & Hsent & Hlen & HP & Hok).
  assert (Hl : len (iloc_to 25 transactions) = Nat.min 25 (len transactions))
    by (unfold len, iloc_to; cbn [rows]; apply length_firstn).
  exists sent. split; [exact Hsent|]. split; [lia|]. split.
  - apply Forall2_firstn_In in HP. exact HP.
  - intros out H. destruct (Hok out H) as [Hs HF]. lia.
Qed.

End ClassifyFacts.

Lemma classify_transaction_no_choice_witness :
  Transactions.classify_transaction Samples.repr_float
    MoreSamples.silent_completion Samples.first_transaction
    Transactions.zero_shot_prompt Samples.fresh_world
  = (Raise IndexError,
     log_call
       (CompletionCall
          (Spec.request_for
             (Spec.filled_prompt Transactions.zero_shot_prompt
                (lit "ACME Ltd") (lit "Bricks")
                (Transactions.py_str Samples.repr_float (Int 30000)))))
       Samples.fresh_world).
Proof.
  apply (classify_transaction_no_choice Samples.repr_float
           MoreSamples.silent_completion Samples.first_transaction
           Transactions.zero_shot_prompt (lit "ACME Ltd") (lit "Bricks")
           (Int 30000) Samples.fresh_world {| choices := [] |});
    reflexivity.
Defined.

(** ** The embedding cell of the transactions notebook *)

Section TransactionEmbedFacts.

Variable repr_float : float -> str.
Variable embedding_endpoint : list call -> str -> string -> result (list float).
Variable Series_str : string -> series cell -> str.
Variable gpt2_encode : string -> str -> list N.

Local Abbreviation embed_and_save :=
  (Transactions.embed_and_save repr_float embedding_endpoint gpt2_encode).
Local Abbreviation embed_series := (Lib.embed_series embedding_endpoint).
Local Abbreviation count_tokens := (Transactions.count_tokens gpt2_encode).
Local Abbreviation similarity_model := "text-similarity-babbage-001".
Local Abbreviation search_model := "text-search-babbage-doc-001".




Lemma count_tokens_only_TypeError a e : count_tokens a = Raise e -> e = TypeError.
Proof. destruct a; cbn; congruence. Qed.

(** X14.  One transaction whose supplier or description is not a string
    (a missing value, a number) stops the embedding cell before the first
    request: its combined text is missing, the token count raises
    [TypeError], and nothing is sent or written. *)
Theorem transactions_missing_text_stops_embedding df dfc i r w :
  Transactions.combine Series_str df = Ok dfc ->
  In (i, r) (rows df) ->
  Derived.is_str (at_ "Supplier" r) && Derived.is_str (at_ "Description" r)
  = false ->
  embed_and_save dfc w = (Raise TypeError, w).
Proof.
  intros Hcomb Hin Hbad.
  destruct (transactions_combined Series_str df dfc Hcomb) as [Hcols Hrows].
  assert (Hc : has_column "combined" dfc = true).
  { unfold has_column. rewrite Hcols. fold (has_column "combined" df).
    destruct (has_column "combined" df) eqn:E; [exact E|].
    rewrite existsb_app. cbn. apply orb_true_r. }
  unfold Transactions.embed_and_save. unfold bind at 1. unfold lift at 1.
  unfold getattr. rewrite Hc. unfold bind at 1. unfold lift at 1.
  rewrite (applyR_raises count_tokens (column "combined" dfc)
             count_tokens_only_TypeError); [reflexivity|].
  apply Exists_exists. unfold column. rewrite Hrows, map_map.
  exists (i, NaN). split.
  - apply in_map_iff. exists (i, r). split; [|exact Hin]. cbn [fst snd].
    f_equal. rewrite at_set_same.
    destruct (at_ "Supplier" r); try reflexivity.
    destruct (at_ "Description" r); try reflexivity. discriminate.
  - exists TypeError. reflexivity.
Qed.

End TransactionEmbedFacts.

Lemma transactions_missing_text_stops_embedding_witness :
  Transactions.embed_and_save Samples.repr_float Samples.steady_endpoint
    Samples.encode
    (Samples.frame_of
       (Transactions.combine MoreSamples.Series_str
          MoreSamples.with_missing_supplier))
    Samples.fresh_world
  = (Raise TypeError, Samples.fresh_world).
Proof.
  apply (transactions_missing_text_stops_embedding Samples.repr_float
           Samples.steady_endpoint MoreSamples.Series_str Samples.encode
           MoreSamples.with_missing_supplier _ 1%Z
           [("Supplier", NaN);
            ("Description", Str (lit "Cabling"));
            ("Transaction value (£)", Int 45000)]
           Samples.fresh_world).
  - reflexivity.
  - right. left. reflexivity.
  - reflexivity.
Defined.

(** ** What [check_finetune_classes] prints *)

Section ClassCheckEffects.

Variable json_loads : str -> result Transactions.json.

Local Abbreviation collect_classes := (Transactions.collect_classes json_loads).
Local Abbreviation check_finetune_classes :=
  (Transactions.check_finetune_classes json_loads).
Local Abbreviation completions := (Spec.completions json_loads).

Lemma collect_classes_raises json_list e :
  completions json_list = Raise e ->
  forall acc, collect_classes json_list acc = Raise e.
Proof.
  induction json_list as [|l ls IH]; intros H acc; [discriminate|].
  cbn [Spec.completions Transactions.collect_classes] in H |- *.
  destruct (json_loads l) as [j|]; cbn [bindR] in H |- *; [|exact H].
  destruct (Transactions.json_getitem "completion" j) as [c|];
    cbn [bindR] in H |- *; [|exact H].
  destruct (Transactions.hashable c) as [k|]; cbn [bindR] in H |- *;
    [|exact H].
  apply IH. destruct (completions ls) as [ks|e']; cbn [bindR] in H;
    [discriminate | exact H].
Qed.

(** X15.  [check_finetune_classes] sends no request and writes no file.  It
    prints three lines when it returns, and when it raises it has printed at
    most the two line counts: never a verdict. *)
Theorem check_finetune_classes_only_prints train_file valid_file w :
  exists printed,
    snd (check_finetune_classes train_file valid_file w)
    = {| calls := calls w; files := files w; stdout := stdout w ++ printed |}
    /\ match fst (check_finetune_classes train_file valid_file w) with
       | Ok _ => length printed = 3%nat
       | Raise _ => (length printed <= 2)%nat /\ Forall Derived.is_count printed
       end.
Proof.
  assert (Hcount : forall A (l : list A), Derived.is_count (str_int (Z.of_nat (length l))))
    by (intros A l; exists (length l); reflexivity).
  unfold Transactions.check_finetune_classes, Transactions.read_lines.
  unfold bind, read_file, print, lift, ret. cbn [files calls stdout].
  destruct (find_file train_file (files w)) as [[t|train_lines]|].
  1,3: exists []; rewrite app_nil_r; destruct w; cbn;
       (split; [reflexivity | split; [lia | constructor]]).
  destruct (collect_classes train_lines []) as [train_classes|e].
  2:{ eexists [_]. cbn [snd fst calls files stdout length].
      split; [reflexivity|]. split; [lia|]. repeat constructor. apply Hcount. }
  destruct (find_file valid_file (files w)) as [[t|valid_lines]|].
  1,3: eexists [_]; cbn [snd fst calls files stdout length];
       (split; [reflexivity|]); (split; [lia|]); repeat constructor;
       apply Hcount.
  destruct (collect_classes valid_lines []) as [valid_classes|e].
  2:{ eexists [_; _]. cbn [snd fst calls files stdout length].
      rewrite <- app_assoc. cbn [app]. split; [reflexivity|].
      split; [lia|]. repeat constructor; apply Hcount. }
  destruct (Nat.eqb _ _); eexists [_; _; _];
    cbn [snd fst calls files stdout length];
    rewrite <- !app_assoc; cbn [app]; (split; reflexivity).
Qed.

(** X16.  A training file with a line that cannot be read as a prepared
    example: [check_finetune_classes] prints the number of lines of the file
    (every line counts, readable or not), raises the error of the first bad
    line, and never opens the validation file. *)
Theorem check_finetune_classes_bad_line
  train_file valid_file w train_lines e :
  find_file train_file (files w) = Some (TextFile train_lines) ->
  completions train_lines = Raise e ->
  check_finetune_classes train_file valid_file w
  = (Raise e,
     {| calls := calls w;
        files := files w;
        stdout := stdout w ++ [str_int (Z.of_nat (length train_lines))] |}).
Proof.
  intros Ht Hbad.
  unfold Transactions.check_finetune_classes, Transactions.read_lines.
  unfold bind, read_file, print, lift, ret. cbn [files calls stdout].
  rewrite Ht. now rewrite (collect_classes_raises train_lines e Hbad []).
Qed.

End ClassCheckEffects.

Lemma check_finetune_classes_bad_line_witness :
  Transactions.check_finetune_classes Samples.json_loads
    "train.jsonl" "valid.jsonl" MoreSamples.unprepared_world
  = (Raise ParserError,
     {| calls := []; files := files MoreSamples.unprepared_world;
        stdout := [lit "2"] |}).
Proof.
  apply (check_finetune_classes_bad_line Samples.json_loads
           "train.jsonl" "valid.jsonl" MoreSamples.unprepared_world
           [lit "0"; lit "not prepared"] ParserError);
    reflexivity.
Defined.

(** ** The classifier cells *)

Section ClassifierEffects.

Variable parse_csv : option nat -> csv -> frame.
Variable py_eval : str -> result cell.
Variable train_test_split :
  list cell -> series cell -> Q -> N ->
  result (list cell * list cell * series cell * series cell).
Variable classifier : Type.
Variable fit : nat -> list cell -> series cell -> result classifier.
Variable predict : classifier -> list cell -> result (list cell).
Variable predict_proba : classifier -> list cell -> result (list (list float)).
Variable classification_report : series cell -> list cell -> result str.

Local Abbreviation fit_and_report :=
  (Classifier.fit_and_report train_test_split classifier fit predict
     predict_proba classification_report).
Local Abbreviation run :=
  (Classification.run parse_csv py_eval train_test_split classifier fit
     predict predict_proba classification_report).
Local Abbreviation classify_with_embeddings :=
  (Transactions.classify_with_embeddings parse_csv py_eval train_test_split
     classifier fit predict predict_proba classification_report).

Lemma printed_only_nil w : Derived.printed_only w w [].
Proof. unfold Derived.printed_only. rewrite app_nil_r. now destruct w. Qed.

(** X17.  The fit-and-report cell returns only if the split, the fit on the
    training part with 100 trees, both predictions on the test part and the
    report of the test labels against the predictions all went through; it
    then prints that report, once.  If anything raises, nothing is printed.
    It sends no request and writes no file either way. *)
Theorem fit_and_report_prints_test_report X y w :
  match fst (fit_and_report X y w) with
  | Ok (preds, probas) =>
      exists X_train X_test y_train y_test clf report,
        train_test_split (Classifier.values X) y (2 # 10)%Q 42%N
        = Ok (X_train, X_test, y_train, y_test)
        /\ fit 100 X_train y_train = Ok clf
        /\ predict clf X_test = Ok preds
        /\ predict_proba clf X_test = Ok probas
        /\ classification_report y_test preds = Ok report
        /\ Derived.printed_only w (snd (fit_and_report X y w)) [report]
  | Raise _ => snd (fit_and_report X y w) = w
  end.
Proof.
  unfold Classifier.fit_and_report, bind, lift, print, ret.
  destruct (train_test_split _ _ _ _) as [[[[X_train X_test] y_train] y_test]|];
    [|reflexivity].
  cbn beta iota.
  destruct (fit 100 X_train y_train) as [clf|] eqn:Hfit; [|reflexivity].
  destruct (predict clf X_test) as [preds|] eqn:Hpred; [|reflexivity].
  destruct (predict_proba clf X_test) as [probas|] eqn:Hproba; [|reflexivity].
  destruct (classification_report y_test preds) as [report|] eqn:Hrep;
    [|reflexivity].
  cbn [fst snd]. exists X_train, X_test, y_train, y_test, clf, report.
  repeat split; auto.
Qed.


Lemma fit_and_report_prints X y w :
  exists printed,
    Derived.printed_only w (snd (fit_and_report X y w)) printed
    /\ (length printed <= 1)%nat
    /\ (forall e, fst (fit_and_report X y w) = Raise e -> printed = []).
Proof.
  assert (Hnil : forall e : exn,
            exists printed,
              Derived.printed_only w w printed
              /\ (length printed <= 1)%nat
              /\ (forall e', @Raise (list cell * list (list float)) e = Raise e'
                             -> printed = [])).
  { intros e. exists []. split; [apply printed_only_nil|].
    split; [cbn; lia | reflexivity]. }
  unfold Classifier.fit_and_report, bind, lift, print, ret.
  destruct (train_test_split _ _ _ _) as [[[[X_train X_test] y_train] y_test]|];
    [|apply Hnil].
  cbn beta iota.
  destruct (fit 100 X_train y_train) as [clf|]; [|apply Hnil].
  destruct (predict clf X_test) as [preds|]; [|apply Hnil].
  destruct (predict_proba clf X_test) as [probas|]; [|apply Hnil].
  destruct (classification_report y_test preds) as [report|]; [|apply Hnil].
  exists [report]. cbn [fst snd length]. split; [reflexivity|].
  split; [lia | discriminate].
Qed.


(** X19.  The embedding classifier of the transactions notebook likewise
    reads the stored vectors: it sends no request and writes no file, and
    prints the report only if it returns. *)
Theorem classify_with_embeddings_sends_nothing w :
  exists printed,
    Derived.printed_only w (snd (classify_with_embeddings w)) printed
    /\ (length printed <= 1)%nat
    /\ (forall e, fst (classify_with_embeddings w) = Raise e -> printed = []).
Proof.
  assert (Hnil : forall e : exn,
            exists printed, Derived.printed_only w w printed
                            /\ (length printed <= 1)%nat
                            /\ (forall e', @Raise (list cell * list (list float)) e = Raise e'
                                         -> printed = [])).
  { intros e. exists []. split; [apply printed_only_nil|].
    split; [cbn; lia | reflexivity]. }
  unfold Transactions.classify_with_embeddings, Lib.read_csv, read_file.
  unfold bind, lift, ret. cbv beta.
  destruct (find_file _ (files w)) as [[t|ls]|]; try apply Hnil.
  destruct (getattr "babbage_similarity" (parse_csv None t)); [|apply Hnil].
  destruct (Lib.applyR _ _); [|apply Hnil].
  destruct (getattr "babbage_similarity" _); [|apply Hnil].
  destruct (getattr "Classification" _); [|apply Hnil].
  apply fit_and_report_prints.
Qed.

End ClassifierEffects.

(** ** Decimal texts and whitespace *)

Lemma lit_cons a s : lit (String a s) = N_of_ascii a :: lit s.
Proof. reflexivity. Qed.

Lemma lit_inj a b : lit a = lit b -> a = b.
Proof.
  revert b. induction a as [|x a IH]; intros [|y b] H; try discriminate;
    [reflexivity|].
  rewrite !lit_cons in H. injection H as Hxy Hab.
  f_equal; [|now apply IH].
  rewrite <- (ascii_N_embedding x), <- (ascii_N_embedding y). now rewrite Hxy.
Qed.

Lemma to_int_proper z :
  Z.to_int z <> Decimal.Pos Decimal.Nil /\ Z.to_int z <> Decimal.Neg Decimal.Nil.
Proof.
  destruct z as [|p|p]; cbn [Z.to_int]; split; try discriminate;
    intros H; injection H as H;
    exact (DecimalPos.Unsigned.to_uint_nonnil p H).
Qed.

(** [str] of an integer determines the integer. *)
Lemma str_int_inj a b : str_int a = str_int b -> a = b.
Proof.
  unfold str_int. intros H. apply lit_inj in H.
  apply DecimalZ.to_int_inj.
  destruct (to_int_proper a) as [Ha Ha'], (to_int_proper b) as [Hb Hb'].
  pose proof (DecimalString.NilZero.isi (Z.to_int a) Ha Ha') as Ea.
  pose proof (DecimalString.NilZero.isi (Z.to_int b) Hb Hb') as Eb.
  rewrite H, Eb in Ea. now injection Ea.
Qed.

Lemma uint_clean d : Derived.clean (lit (DecimalString.NilEmpty.string_of_uint d)) = true.
Proof.
  unfold Derived.clean.
  induction d; cbn [DecimalString.NilEmpty.string_of_uint];
    [reflexivity | rewrite lit_cons; cbn [forallb]; rewrite IHd; reflexivity ..].
Qed.

(** [str] of an integer holds no whitespace. *)
Lemma str_int_clean z : Derived.clean (str_int z) = true.
Proof.
  unfold str_int.
  assert (H : forall d, Derived.clean (lit (DecimalString.NilZero.string_of_uint d)) = true).
  { intros d. destruct d; try apply uint_clean. reflexivity. }
  destruct (Z.to_int z) as [d|d]; cbn [DecimalString.NilZero.string_of_int].
  - apply H.
  - rewrite lit_cons. unfold Derived.clean in *. cbn [forallb]. now rewrite H.
Qed.

Lemma lstrip_spaces ws s : forallb isspace ws = true -> lstrip (ws ++ s) = lstrip s.
Proof.
  induction ws as [|c ws IH]; intros H; [reflexivity|].
  cbn [forallb] in H. apply andb_true_iff in H. destruct H as [Hc Hws].
  cbn [app lstrip]. rewrite Hc. now apply IH.
Qed.

Lemma lstrip_all_spaces ws : forallb isspace ws = true -> lstrip ws = [].
Proof.
  intros H. rewrite <- (app_nil_r ws). now rewrite lstrip_spaces.
Qed.

Lemma lstrip_clean s : Derived.clean s = true -> lstrip s = s.
Proof.
  destruct s as [|c s]; [reflexivity|]. unfold Derived.clean. cbn [forallb lstrip].
  intros H. apply andb_true_iff in H. destruct H as [Hc _].
  now destruct (isspace c).
Qed.

Lemma forallb_rev {A} (p : A -> bool) l : forallb p l = true -> forallb p (rev l) = true.
Proof.
  rewrite !forallb_forall. intros H x Hx. apply H. now apply in_rev.
Qed.

(** [strip] removes the whitespace around a text that holds none. *)
Lemma strip_padded ws s ws' :
  forallb isspace ws = true -> forallb isspace ws' = true -> Derived.clean s = true ->
  strip (ws ++ s ++ ws') = s.
Proof.
  intros Hws Hws' Hs. unfold strip, rstrip. rewrite (lstrip_spaces ws) by assumption.
  destruct s as [|c s].
  - cbn [app]. now rewrite (lstrip_all_spaces ws').
  - assert (Hc : lstrip ((c :: s) ++ ws') = (c :: s) ++ ws').
    { unfold Derived.clean in Hs. cbn [forallb] in Hs. apply andb_true_iff in Hs.
      cbn [app lstrip]. destruct Hs as [Hc _]. now destruct (isspace c). }
    rewrite Hc, rev_app_distr.
    rewrite lstrip_spaces by now apply forallb_rev.
    rewrite lstrip_clean by (now apply forallb_rev). apply rev_involutive.
Qed.

(** ** The fine-tuning cells *)

Section FineTuneFacts.

Variable repr_float : float -> str.
Variable Series_str : string -> series cell -> str.

Local Abbreviation spaced_id := (FineTune.spaced_id repr_float).
Local Abbreviation prediction_correct := (FineTune.prediction_correct repr_float).

(** X20.  The completion made of a class id determines the id: two rows get
    the same completion exactly when they have the same class id. *)
Theorem spaced_id_distinguishes x y a b :
  lookup "class_id" x = Some (Int a) ->
  lookup "class_id" y = Some (Int b) ->
  spaced_id x = Ok (Str (lit " " ++ str_int a))
  /\ (spaced_id x = spaced_id y <-> a = b).
Proof.
  intros Hx Hy. unfold FineTune.spaced_id, Transactions.row_getitem.
  rewrite Hx, Hy. cbn [bindR Transactions.py_str Lib.render].
  split; [reflexivity|]. split.
  - intros H. injection H as H. now apply str_int_inj.
  - now intros ->.
Qed.

(** X21.  The comparison of a prediction with a completion looks through the
    whitespace around both: when the prediction is the decimal text of [k]
    with whitespace around it, and the completion is the number [j] or the
    text of [j] after the space the preparation puts before it, the result
    is true exactly when [k = j]. *)
Theorem prediction_correct_iff_same_class x k j ws ws' c :
  lookup "pred" x = Some (Str (ws ++ str_int k ++ ws')) ->
  forallb isspace ws = true ->
  forallb isspace ws' = true ->
  lookup "completion" x = Some c ->
  c = Int j \/ c = Str (lit " " ++ str_int j) ->
  prediction_correct x = Ok (Z.eqb k j).
Proof.
  intros Hp Hws Hws' Hc Hform.
  unfold FineTune.prediction_correct, Transactions.row_getitem.
  rewrite Hp, Hc. cbn [bindR Transactions.py_str Lib.render].
  rewrite (strip_padded ws (str_int k) ws' Hws Hws' (str_int_clean k)).
  assert (Hj : strip (Transactions.py_str repr_float c) = str_int j).
  { destruct Hform as [-> | ->]; cbn [Transactions.py_str Lib.render].
    - pose proof (strip_padded [] (str_int j) [] eq_refl eq_refl
                    (str_int_clean j)) as E.
      cbn [app] in E. now rewrite app_nil_r in E.
    - pose proof (strip_padded (lit " ") (str_int j) [] eq_refl eq_refl
                    (str_int_clean j)) as E.
      now rewrite app_nil_r in E. }
  rewrite Hj. f_equal. unfold str_eqb.
  destruct (list_eq_dec N.eq_dec (str_int k) (str_int j)) as [E|E];
    destruct (Z.eqb_spec k j) as [Hkj|Hkj]; try reflexivity.
  - now apply str_int_inj in E.
  - subst. contradiction.
Qed.

Lemma holdout_rows transactions out :
  FineTune.holdout transactions = Ok out ->
  rows out
  = map (fun ir =>
           (fst ir,
            set "combined"
              (match at_ "Supplier" (snd ir), at_ "Description" (snd ir) with
               | Str s, Str d => Str (Derived.holdout_text s d)
               | _, _ => NaN
               end)
              (snd ir)))
        (skipn 101 (rows transactions)).
Proof.
  unfold FineTune.holdout, getitem.
  destruct (has_column "Supplier" _); cbn [bindR]; [|discriminate].
  destruct (has_column "Description" _); cbn [bindR]; [|discriminate].
  intros H. injection H as <-.
  unfold setitem; cbn [rows].
  unfold str_strip, radd, add_lit, column, iloc_from; cbn [rows].
  rewrite !apply_own, add_own, !apply_own, assign_own.
  apply map_ext. intros [i r]; cbn [fst snd].
  destruct (at_ "Supplier" r); try reflexivity;
    destruct (at_ "Description" r); try reflexivity.
  cbn [option_map cell_of_text]. unfold Derived.holdout_text.
  now rewrite <- !app_assoc.
Qed.

(** X22.  The holdout set is what follows the first 101 transactions, under
    the labels the rows had: a table of at most 101 rows has an empty
    holdout set.  Each row gets a [combined] text made of its own supplier
    and description and the separator (missing when one of them is not a
    string), and its other cells unchanged. *)
Theorem holdout_after_first_101 transactions out :
  FineTune.holdout transactions = Ok out ->
  len out = (len transactions - 101)%nat
  /\ map fst (rows out) = skipn 101 (map fst (rows transactions))
  /\ Forall2 (fun ir jr =>
                at_ "combined" (snd jr)
                = match at_ "Supplier" (snd ir), at_ "Description" (snd ir) with
                  | Str s, Str d => Str (Derived.holdout_text s d)
                  | _, _ => NaN
                  end
                /\ forall k, k <> "combined" -> at_ k (snd jr) = at_ k (snd ir))
       (skipn 101 (rows transactions)) (rows out).
Proof.
  intros H. unfold len. rewrite (holdout_rows transactions out H).
  split; [|split].
  - now rewrite length_map, length_skipn.
  - rewrite map_map. cbn [fst]. now rewrite skipn_map.
  - induction (skipn 101 (rows transactions)) as [|[i r] rs IH]; cbn [map];
      constructor; [|exact IH].
    cbn [fst snd]. split; [apply at_set_same|].
    intros k Hk. apply at_set_other. congruence.
Qed.

(** X23.  The prompt of a holdout transaction is never the prompt the model
    was trained on for a transaction with the same supplier and description:
    the training prompt carries [; Value: ...] before the separator, the
    holdout prompt does not. *)
Theorem holdout_prompt_is_not_training_prompt
  df dfc transactions out i r j r' s d :
  Transactions.combine Series_str df = Ok dfc ->
  FineTune.holdout transactions = Ok out ->
  In (i, r) (rows dfc) ->
  In (j, r') (rows out) ->
  at_ "Supplier" r = Str s -> at_ "Description" r = Str d ->
  at_ "Supplier" r' = Str s -> at_ "Description" r' = Str d ->
  exists trained held,
    FineTune.ended_prompt r = Ok (Str trained)
    /\ at_ "combined" r' = Str held
    /\ trained <> held.
Proof.
  intros Hcomb Hhold Hin Hin' Hs Hd Hs' Hd'.
  destruct (transactions_combined Series_str df dfc Hcomb) as [_ Hrows].
  rewrite Hrows in Hin. apply in_map_iff in Hin.
  destruct Hin as ([i0 r0] & E & _). cbn [fst snd] in E.
  injection E as _ <-.
  rewrite at_set_other in Hs, Hd by discriminate.
  rewrite (holdout_rows transactions out Hhold) in Hin'.
  apply in_map_iff in Hin'. destruct Hin' as ([j0 r0'] & E' & _).
  cbn [fst snd] in E'. injection E' as _ <-.
  rewrite at_set_other in Hs', Hd' by discriminate.
  rewrite Hs, Hd. rewrite at_set_same, Hs', Hd'.
  eexists _, _. split; [|split; [reflexivity|]].
  - unfold FineTune.ended_prompt, Transactions.row_getitem.
    rewrite lookup_set_same. reflexivity.
  - unfold Spec.transaction_text, Derived.holdout_text.
    rewrite <- !app_assoc. intros H.
    repeat apply app_inv_head in H. discriminate.
Qed.

End FineTuneFacts.

(** ** Preparing the fine-tuning examples *)

Lemma renumber_snd n rs : map snd (renumber n rs) = rs.
Proof.
  revert n. induction rs as [|r rs IH]; intros n; cbn [renumber map snd];
    [reflexivity | now rewrite IH].
Qed.

Lemma index_of_In c l : In c l -> exists k, Derived.index_of c l = Some k.
Proof.
  induction l as [|x l IH]; intros H; [contradiction|].
  cbn [Derived.index_of]. unfold cell_eqb.
  destruct (cell_eq_dec c x) as [E|E]; [now exists 0%nat|].
  destruct H as [H|H]; [congruence|].
  destruct (IH H) as [k ->]. now exists (S k).
Qed.

Lemma index_of_absent c l : ~ In c l -> Derived.index_of c l = None.
Proof.
  induction l as [|x l IH]; intros H; [reflexivity|].
  cbn [Derived.index_of]. unfold cell_eqb.
  destruct (cell_eq_dec c x) as [E|E]; [subst; elim H; now left|].
  rewrite IH; [reflexivity|]. intros Hin. apply H. now right.
Qed.

(** The lines of the class table that carry a given class: one when the
    classes are distinct and the class is among them. *)
Lemma class_rows_of c classes z start :
  NoDup classes ->
  map snd
    (filter (fun jr : Z * row => cell_eqb c (at_ "class" (snd jr)))
       (renumber z
          (map (fun iv : nat * cell =>
                  [("class_id", Int (Z.of_nat (fst iv))); ("class", snd iv)])
               (combine (seq start (length classes)) classes))))
  = match Derived.index_of c classes with
    | Some k => [Derived.class_row (start + k) c]
    | None => []
    end.
Proof.
  intros Hnd. revert z start.
  induction Hnd as [|x cl Hx Hnd IH]; intros z start; [reflexivity|].
  cbn [length seq combine map renumber filter fst snd Derived.index_of].
  change (at_ "class" [("class_id", Int (Z.of_nat start)); ("class", x)]) with x.
  specialize (IH (z + 1)%Z (S start)).
  assert (Hspec : cell_eqb c x = true -> c = x)
    by (unfold cell_eqb; destruct (cell_eq_dec c x); congruence).
  destruct (cell_eqb c x) eqn:E.
  - rewrite <- (Hspec eq_refl) in Hx. cbn [map snd].
    rewrite IH, (index_of_absent c cl Hx), Nat.add_0_r.
    now rewrite (Hspec eq_refl).
  - rewrite IH. destruct (Derived.index_of c cl) as [k|]; cbn [option_map];
      [|reflexivity].
    now rewrite Nat.add_succ_r.
Qed.

Lemma apply_rows_total (f : row -> result cell) (F : row -> cell) rs s :
  (forall r v, f r = Ok v -> v = F r) ->
  apply_rows f rs = Ok s ->
  s = map (fun ir => (fst ir, F (snd ir))) rs
  /\ Forall (fun ir => f (snd ir) = Ok (F (snd ir))) rs.
Proof.
  intros HF. revert s. induction rs as [|[i r] rs IH]; intros s H.
  - injection H as <-. split; [reflexivity | constructor].
  - cbn [apply_rows] in H. destruct (f r) as [v|] eqn:E; cbn [bindR] in H;
      [|discriminate].
    destruct (apply_rows f rs) as [t|]; cbn [bindR] in H; [|discriminate].
    injection H as <-. destruct (IH t eq_refl) as [-> Hall].
    pose proof (HF r v E) as Hv. subst v. split; [reflexivity|].
    constructor; [exact E | exact Hall].
Qed.

Lemma combine_map_same {A B C} (f : A -> B) (g : A -> C) l :
  combine (map f l) (map g l) = map (fun a => (f a, g a)) l.
Proof. induction l as [|a l IH]; cbn; [reflexivity | now rewrite IH]. Qed.

Lemma map_snd_combine {A B} (l1 : list A) (l2 : list B) :
  length l1 = length l2 -> map snd (combine l1 l2) = l2.
Proof.
  revert l2. induction l1 as [|a l1 IH]; intros [|b l2] H; try discriminate;
    [reflexivity|].
  cbn [combine map snd]. f_equal. apply IH. now injection H.
Qed.

Lemma lookup_app c (a b : row) :
  lookup c (a ++ b) = match lookup c a with
                      | Some v => Some v
                      | None => lookup c b
                      end.
Proof.
  induction a as [|[k v] a IH]; [reflexivity|].
  cbn [app lookup]. now destruct (String.eqb c k).
Qed.

Lemma lookup_project c cs r :
  lookup c (project cs r) = if existsb (String.eqb c) cs then Some (at_ c r) else None.
Proof.
  unfold project. induction cs as [|k cs IH]; [reflexivity|].
  cbn [map lookup existsb]. destruct (String.eqb_spec c k) as [->|_];
    [reflexivity | exact IH].
Qed.

Lemma existsb_eqb_false c cs : ~ In c cs -> existsb (String.eqb c) cs = false.
Proof.
  intros H. destruct (existsb (String.eqb c) cs) eqn:E; [|reflexivity].
  apply existsb_exists in E. destruct E as (k & Hk & E).
  apply String.eqb_eq in E. subst. contradiction.
Qed.

Lemma Forall2_In_left {A B} (R : A -> B -> Prop) l l' a :
  Forall2 R l l' -> In a l -> exists b, In b l' /\ R a b.
Proof.
  induction 1 as [|x y l l' Hxy _ IH]; intros Hin; [contradiction|].
  destruct Hin as [<-|Hin].
  - exists y. split; [now left | exact Hxy].
  - destruct (IH Hin) as (b & Hb & HR). exists b. split; [now right | exact HR].
Qed.

Lemma index_of_nth c l k :
  Derived.index_of c l = Some k -> nth_error l k = Some c.
Proof.
  revert k. induction l as [|x l IH]; intros k; [discriminate|].
  cbn [Derived.index_of]. unfold cell_eqb.
  destruct (cell_eq_dec c x) as [->|_].
  - intros H. now injection H as <-.
  - destruct (Derived.index_of c l) as [j|]; [|discriminate].
    intros H. injection H as <-. cbn [nth_error]. now apply IH.
Qed.

Lemma flat_map_singletons {A B C} (G : B -> C) (J : A -> list B)
  (E : A -> C -> Prop) l :
  (forall a, In a l -> exists ex, E a ex /\ map G (J a) = [ex]) ->
  exists examples, Forall2 E l examples /\ map G (flat_map J l) = examples.
Proof.
  induction l as [|a l IH]; intros H.
  - exists []. split; [constructor | reflexivity].
  - destruct (H a (or_introl eq_refl)) as (ex & Hex & Hmap).
    destruct IH as (examples & HF & Heq); [intros b Hb; apply H; now right|].
    exists (ex :: examples). split; [now constructor|].
    cbn [flat_map]. now rewrite map_app, Hmap, Heq.
Qed.

Section PrepareFacts.

Variable repr_float : float -> str.
Variable set_list : list cell -> list cell.
Variable randint : nat -> Z -> Z -> Z.
Variable sort_index : list (Z * row) -> list (Z * row).
Variable join_order : list row -> list row.

Hypothesis sort_index_perm : forall rs, Permutation (sort_index rs) rs.

Local Abbreviation shuffled := (FineTune.shuffled randint sort_index).
Local Abbreviation with_class := (FineTune.with_class repr_float join_order).
Local Abbreviation class_table := (FineTune.class_table set_list).
Local Abbreviation prepare :=
  (FineTune.prepare repr_float set_list randint sort_index join_order).
Local Abbreviation finished := (Derived.finished repr_float).
Local Abbreviation example_of := (Derived.example_of repr_float).

Lemma shuffled_pairs df out :
  shuffled df = Ok out ->
  columns out = ["prompt"; "completion"]
  /\ Permutation (map (fun jr => Derived.pair_of (snd jr)) (rows out))
       (map (fun ir => (at_ "prompt" (snd ir), at_ "class_id" (snd ir)))
            (rows df)).
Proof.
  unfold FineTune.shuffled, getitem.
  destruct (has_column "class_id" df); cbn [bindR]; [|discriminate].
  destruct (has_column "prompt" df); cbn [bindR]; [|discriminate].
  intros H. injection H as <-. cbn [columns rows]. split; [reflexivity|].
  eapply Permutation_trans;
    [apply Permutation_map, sort_index_perm|].
  rewrite map_map. cbn [fst snd].
  match goal with
  | |- Permutation (map ?f ?l) _ =>
      rewrite (map_ext f (fun op => snd op))
        by (intros [o [a b]]; reflexivity)
  end.
  rewrite map_snd_combine by (now rewrite length_map, length_seq).
  unfold Classifier.values, column. rewrite !map_map. cbn [snd].
  now rewrite combine_map_same.
Qed.

(** X24.  The shuffling cell loses no example and makes none up: on a frame
    with at least one row, whatever the random keys are, the rows of the
    shuffled frame carry, as prompt and completion, exactly the prompts and
    class ids of the rows it was given, each as often as it was there; only
    the order is the sort's. *)
Theorem shuffle_keeps_every_example df out :
  rows df <> [] ->
  shuffled df = Ok out ->
  columns out = ["prompt"; "completion"]
  /\ len out = len df
  /\ Permutation (map (fun jr => Derived.pair_of (snd jr)) (rows out))
       (map (fun ir => (at_ "prompt" (snd ir), at_ "class_id" (snd ir)))
            (rows df)).
Proof.
  intros _ H. destruct (shuffled_pairs df out H) as [Hc Hp].
  split; [exact Hc|]. split; [|exact Hp].
  apply Permutation_length in Hp. rewrite !length_map in Hp. exact Hp.
Qed.

Hypothesis join_order_perm : forall rs, Permutation (join_order rs) rs.
Hypothesis set_list_In : forall l x, In x (set_list l) <-> In x l.
Hypothesis set_list_NoDup : forall l, NoDup (set_list l).

Local Abbreviation class_frame classes :=
  (enumerate_frame "class_id" "class" classes).
Local Abbreviation merged classes df :=
  (join_order
     (flat_map (fun ir : Z * row =>
                  Derived.joined classes (columns df) (snd ir))
        (rows df))).
Local Abbreviation spaced r :=
  (Str (lit " " ++ Transactions.py_str repr_float (at_ "class_id" r))).

Lemma merge_rows df classes m :
  NoDup classes ->
  merge_inner join_order df (class_frame classes) "Classification" "class"
  = Ok m ->
  rows m = renumber 0 (merged classes df).
Proof.
  intros Hnd. unfold merge_inner.
  destruct (has_column "Classification" df); cbn [negb]; [|discriminate].
  change (negb (has_column "class" (class_frame classes))) with false.
  cbv iota. intros H. injection H as <-. cbn [rows]. f_equal. f_equal.
  apply flat_map_ext. intros [i r]. cbn [snd]. unfold Derived.joined.
  rewrite <- (map_map snd
                (fun r' => project (columns df) r
                           ++ [("class_id", at_ "class_id" r');
                               ("class", at_ "class" r')])).
  rewrite (class_rows_of (at_ "Classification" r) classes 0 0 Hnd).
  destruct (Derived.index_of _ classes); reflexivity.
Qed.

Lemma with_class_rows df classes out :
  NoDup classes ->
  with_class df (class_frame classes) = Ok out ->
  rows out
  = map (fun ir => (fst ir, finished (snd ir))) (renumber 0 (merged classes df))
  /\ Forall (fun r => exists s,
                 lookup "combined" (del "class" (set "class_id" (spaced r) r))
                 = Some (Str s))
       (merged classes df).
Proof.
  intros Hnd. unfold FineTune.with_class.
  destruct (merge_inner _ _ _ _ _) as [m|] eqn:Hm; cbn [bindR]; [|discriminate].
  pose proof (merge_rows df classes m Hnd Hm) as Hrows.
  destruct (apply_rows (FineTune.spaced_id repr_float) (rows m))
    as [class_id|] eqn:H1; cbn [bindR]; [|discriminate].
  destruct (apply_rows_total (FineTune.spaced_id repr_float)
              (fun r => spaced r) (rows m) class_id) as [-> _];
    [|exact H1|].
  { intros r v. unfold FineTune.spaced_id, Transactions.row_getitem, at_.
    destruct (lookup "class_id" r); cbn [bindR]; [|discriminate].
    intros H. now injection H as <-. }
  destruct (drop "class" _) as [d|] eqn:Hd; cbn [bindR]; [|discriminate].
  assert (Hd' : rows d
                = map (fun ir => (fst ir,
                                  del "class"
                                    (set "class_id" (spaced (snd ir)) (snd ir))))
                      (rows m)).
  { unfold drop in Hd. destruct (has_column "class" _); [|discriminate].
    injection Hd as <-. cbn [rows]. unfold setitem. cbn [rows].
    etransitivity;
      [apply f_equal;
       exact (assign_own "class_id" (fun ir => spaced (snd ir)) (rows m))|].
    now rewrite map_map. }
  destruct (apply_rows FineTune.ended_prompt (rows d)) as [prompt|] eqn:H2;
    cbn [bindR]; [|discriminate].
  destruct (apply_rows_total FineTune.ended_prompt
              (fun r => match at_ "combined" r with
                        | Str s => Str (s ++ FineTune.separator)
                        | _ => NaN
                        end)
              (rows d) prompt) as [-> Hall]; [|exact H2|].
  { intros r v. unfold FineTune.ended_prompt, Transactions.row_getitem, at_.
    destruct (lookup "combined" r) as [[| |s|]|]; cbn; try discriminate.
    intros H. now injection H as <-. }
  intros H. injection H as <-. split.
  - unfold setitem. cbn [rows].
    rewrite (assign_own "prompt"
               (fun ir => match at_ "combined" (snd ir) with
                          | Str s => Str (s ++ FineTune.separator)
                          | _ => NaN
                          end) (rows d)).
    rewrite Hd', map_map, Hrows. apply map_ext. intros [i r]. reflexivity.
  - rewrite Hd', Hrows in Hall. apply Forall_forall. intros r Hr.
    rewrite <- (renumber_snd 0 (merged classes df)) in Hr.
    apply in_map_iff in Hr. destruct Hr as ([i r0] & <- & Hin).
    rewrite Forall_forall in Hall.
    specialize (Hall (i, del "class" (set "class_id" (spaced r0) r0))).
    cbn [snd] in *.
    assert (Hin' : In (i, del "class" (set "class_id" (spaced r0) r0))
                     (map (fun ir : Z * row =>
                             (fst ir,
                              del "class"
                                (set "class_id" (spaced (snd ir)) (snd ir))))
                        (renumber 0 (merged classes df))))
      by (apply in_map_iff; exists (i, r0); split; [reflexivity | exact Hin]).
    specialize (Hall Hin'). revert Hall.
    unfold FineTune.ended_prompt, Transactions.row_getitem.
    destruct (lookup "combined" _) as [[| |s|]|]; cbn; try discriminate.
    intros _. now exists s.
Qed.

(** What becomes of one labelled row whose class is in the table and whose
    joined row went through the two assignments. *)
Lemma finished_example classes cols r k s :
  ~ In "class_id" cols -> ~ In "class" cols ->
  Derived.index_of (at_ "Classification" r) classes = Some k ->
  lookup "combined"
    (del "class"
       (set "class_id"
          (spaced (project cols r ++ Derived.class_row k (at_ "Classification" r)))
          (project cols r ++ Derived.class_row k (at_ "Classification" r))))
  = Some (Str s) ->
  let r' := project cols r ++ Derived.class_row k (at_ "Classification" r) in
  example_of classes r
  = Some (at_ "prompt" (finished r'), at_ "class_id" (finished r')).
Proof.
  intros Hid Hcl Hk Hcomb r'. fold r' in Hcomb.
  assert (Hclass_id : at_ "class_id" r' = Int (Z.of_nat k)).
  { unfold at_, r'. rewrite lookup_app, lookup_project.
    now rewrite (existsb_eqb_false "class_id" cols Hid). }
  assert (Hr : at_ "combined" r = Str s).
  { rewrite lookup_del_other, lookup_set_other in Hcomb by discriminate.
    unfold r' in Hcomb. rewrite lookup_app, lookup_project in Hcomb.
    destruct (existsb (String.eqb "combined") cols); [|discriminate].
    now injection Hcomb. }
  unfold Derived.example_of. rewrite Hr, Hk.
  unfold Derived.finished. fold r'.
  rewrite at_set_same, at_set_other by discriminate.
  rewrite (at_del_other "class" "class_id") by discriminate.
  rewrite at_set_same.
  unfold at_ at 1. rewrite Hcomb, Hclass_id. reflexivity.
Qed.

Lemma prepare_steps df out :
  ~ In "class_id" (columns df) ->
  ~ In "class" (columns df) ->
  prepare df = Ok out ->
  columns out = ["prompt"; "completion"]
  /\ exists examples,
      Forall2 (fun ir ex =>
                 example_of
                   (set_list (Classifier.values (column "Classification" df)))
                   (snd ir) = Some ex)
        (rows df) examples
      /\ Permutation (map (fun jr => Derived.pair_of (snd jr)) (rows out))
           examples.
Proof.
  intros Hid Hcl. unfold FineTune.prepare, FineTune.class_table, getitem.
  destruct (has_column "Classification" df); cbn [bindR]; [|discriminate].
  set (classes := set_list (Classifier.values (column "Classification" df))).
  destruct (with_class df (class_frame classes)) as [wc|] eqn:Hwc;
    cbn [bindR]; [|discriminate].
  intros Hsh.
  destruct (with_class_rows df classes wc (set_list_NoDup _) Hwc)
    as [Hrows Hall].
  destruct (shuffled_pairs wc out Hsh) as [Hcols Hperm].
  split; [exact Hcols|].
  rewrite Hrows, map_map in Hperm. cbn [snd] in Hperm.
  rewrite <- (map_map snd (fun r => (at_ "prompt" (finished r),
                                      at_ "class_id" (finished r)))) in Hperm.
  rewrite renumber_snd in Hperm.
  assert (Hperm' :
            Permutation (map (fun jr => Derived.pair_of (snd jr)) (rows out))
              (map (fun r => (at_ "prompt" (finished r),
                              at_ "class_id" (finished r)))
                 (flat_map (fun ir : Z * row =>
                              Derived.joined classes (columns df) (snd ir))
                    (rows df)))).
  { eapply Permutation_trans; [exact Hperm|].
    apply Permutation_map, join_order_perm. }
  clear Hperm Hrows Hsh Hwc.
  assert (Hrow : forall ir, In ir (rows df) ->
            exists ex,
              example_of classes (snd ir) = Some ex
              /\ map (fun r => (at_ "prompt" (finished r),
                                at_ "class_id" (finished r)))
                   (Derived.joined classes (columns df) (snd ir)) = [ex]).
  { intros [i r] Hin. cbn [snd].
    assert (Hc : In (at_ "Classification" r) classes).
    { apply set_list_In. unfold Classifier.values, column. rewrite map_map.
      apply in_map_iff. exists (i, r). split; [reflexivity | exact Hin]. }
    destruct (index_of_In _ _ Hc) as [k Hk].
    assert (Hj : Derived.joined classes (columns df) r
                 = [project (columns df) r
                    ++ Derived.class_row k (at_ "Classification" r)])
      by (unfold Derived.joined; now rewrite Hk).
    assert (Hin' : In (project (columns df) r
                       ++ Derived.class_row k (at_ "Classification" r))
                     (merged classes df)).
    { apply (Permutation_in _ (Permutation_sym (join_order_perm _))).
      apply in_flat_map. exists (i, r). split; [exact Hin|].
      cbn [snd]. rewrite Hj. now left. }
    rewrite Forall_forall in Hall. destruct (Hall _ Hin') as [s Hs].
    eexists. split.
    - exact (finished_example classes (columns df) r k s Hid Hcl Hk Hs).
    - rewrite Hj. reflexivity. }
  destruct (flat_map_singletons _ _ _ (rows df) Hrow) as (examples & HF & Heq).
  rewrite Heq in Hperm'. exists examples. split; assumption.
Qed.

(** X25.  The data preparation, from the labelled frame to the shuffled
    examples.  Provided the set of classes lists each class once, and the
    join and the sort only reorder rows, a preparation that returns has made
    exactly one example of every labelled row: its prompt is the row's
    combined text followed by the separator, its completion a space and the
    position of the row's class in the class list.  The examples come in the
    sort's order, under the columns prompt and completion. *)
Theorem prepare_one_example_per_row df out :
  rows df <> [] ->
  ~ In "class_id" (columns df) ->
  ~ In "class" (columns df) ->
  prepare df = Ok out ->
  columns out = ["prompt"; "completion"]
  /\ len out = len df
  /\ exists examples,
      Forall2 (fun ir ex =>
                 example_of
                   (set_list (Classifier.values (column "Classification" df)))
                   (snd ir) = Some ex)
        (rows df) examples
      /\ Permutation (map (fun jr => Derived.pair_of (snd jr)) (rows out))
           examples.
Proof.
  intros _ Hid Hcl H.
  destruct (prepare_steps df out Hid Hcl H) as (Hcols & examples & HF & Hperm).
  split; [exact Hcols|]. split.
  - apply Permutation_length in Hperm. apply Forall2_length in HF.
    rewrite length_map in Hperm. unfold len. congruence.
  - exists examples. split; assumption.
Qed.

(** X26.  The completion of an example tells the class: the examples made of
    two labelled rows are both among the shuffled examples, and they have
    the same completion exactly when the rows have the same
    Classification. *)
Theorem prepare_completion_tells_class df out i1 r1 i2 r2 :
  rows df <> [] ->
  ~ In "class_id" (columns df) ->
  ~ In "class" (columns df) ->
  prepare df = Ok out ->
  In (i1, r1) (rows df) ->
  In (i2, r2) (rows df) ->
  exists ex1 ex2,
    In ex1 (map (fun jr => Derived.pair_of (snd jr)) (rows out))
    /\ In ex2 (map (fun jr => Derived.pair_of (snd jr)) (rows out))
    /\ (exists s, at_ "combined" r1 = Str s
                  /\ fst ex1 = Str (s ++ FineTune.separator))
    /\ (exists s, at_ "combined" r2 = Str s
                  /\ fst ex2 = Str (s ++ FineTune.separator))
    /\ (snd ex1 = snd ex2
        <-> at_ "Classification" r1 = at_ "Classification" r2).
Proof.
  intros _ Hid Hcl H Hin1 Hin2.
  destruct (prepare_steps df out Hid Hcl H) as (_ & examples & HF & Hperm).
  destruct (Forall2_In_left _ _ _ _ HF Hin1) as (ex1 & Hex1 & E1).
  destruct (Forall2_In_left _ _ _ _ HF Hin2) as (ex2 & Hex2 & E2).
  cbn [snd] in E1, E2. exists ex1, ex2.
  split; [exact (Permutation_in _ (Permutation_sym Hperm) Hex1)|].
  split; [exact (Permutation_in _ (Permutation_sym Hperm) Hex2)|].
  unfold Derived.example_of in E1, E2.
  destruct (at_ "combined" r1) as [| |s1|]; try discriminate.
  destruct (Derived.index_of (at_ "Classification" r1) _) as [k1|] eqn:K1;
    [|discriminate].
  destruct (at_ "combined" r2) as [| |s2|]; try discriminate.
  destruct (Derived.index_of (at_ "Classification" r2) _) as [k2|] eqn:K2;
    [|discriminate].
  injection E1 as <-. injection E2 as <-. cbn [fst snd].
  split; [now exists s1|]. split; [now exists s2|].
  apply index_of_nth in K1, K2. split.
  - intros E. injection E as E.
    apply str_int_inj, Nat2Z.inj in E. subst k2. congruence.
  - intros E. rewrite E in K1.
    assert (Hk : forall l (c : cell) a b,
               NoDup l -> nth_error l a = Some c -> nth_error l b = Some c ->
               a = b).
    { intros l c a b Hnd Ha Hb.
      apply (proj1 (NoDup_nth_error l) Hnd); [|congruence].
      apply nth_error_Some. congruence. }
    now rewrite (Hk _ _ k1 k2 (set_list_NoDup _) K1 K2).
Qed.

End PrepareFacts.

Lemma sample_sort_index_perm rs : Permutation (MoreSamples.sort_index rs) rs.
Proof.
  assert (Hins : forall x l, Permutation (MoreSamples.insert_label x l) (x :: l)).
  { intros x l. induction l as [|y l IH]; cbn [MoreSamples.insert_label];
      [apply Permutation_refl|].
    destruct (fst x <=? fst y)%Z; [apply Permutation_refl|].
    eapply Permutation_trans; [apply perm_skip, IH | apply perm_swap]. }
  unfold MoreSamples.sort_index.
  induction rs as [|x rs IH]; cbn [fold_right]; [constructor|].
  eapply Permutation_trans; [apply Hins | now apply perm_skip].
Qed.

Lemma sample_set_list_In l x : In x (MoreSamples.set_list l) <-> In x l.
Proof.
  unfold MoreSamples.set_list. rewrite <- in_rev, nodup_In, <- in_rev. tauto.
Qed.

Lemma sample_set_list_NoDup l : NoDup (MoreSamples.set_list l).
Proof. unfold MoreSamples.set_list. apply NoDup_rev, NoDup_nodup. Qed.

Lemma spaced_id_distinguishes_witness :
  FineTune.spaced_id Samples.repr_float [("class_id", Int 3)]
  = Ok (Str (lit " 3"))
  /\ (FineTune.spaced_id Samples.repr_float [("class_id", Int 3)]
      = FineTune.spaced_id Samples.repr_float [("class_id", Int 4)]
      <-> 3%Z = 4%Z).
Proof.
  apply (spaced_id_distinguishes Samples.repr_float
           [("class_id", Int 3)] [("class_id", Int 4)] 3 4); reflexivity.
Defined.

Lemma prediction_correct_iff_same_class_witness :
  FineTune.prediction_correct Samples.repr_float MoreSamples.answered = Ok true.
Proof.
  apply (prediction_correct_iff_same_class Samples.repr_float
           MoreSamples.answered 3 3 (lit " ") [] (Int 3));
    try reflexivity.
  now left.
Defined.

Lemma holdout_after_first_101_witness :
  len (Samples.frame_of (FineTune.holdout MoreSamples.many_transactions))
  = (103 - 101)%nat
  /\ map fst (rows (Samples.frame_of
                      (FineTune.holdout MoreSamples.many_transactions)))
     = [101%Z; 102%Z].
Proof.
  destruct (holdout_after_first_101 MoreSamples.many_transactions
              (Samples.frame_of (FineTune.holdout MoreSamples.many_transactions))
              eq_refl) as (Hlen & Hix & _).
  split; [exact Hlen | exact Hix].
Defined.

Lemma holdout_prompt_is_not_training_prompt_witness :
  exists trained held,
    FineTune.ended_prompt
      (snd (hd (0%Z, [])
              (rows (Samples.frame_of
                       (Transactions.combine MoreSamples.Series_str
                          Samples.two_transactions)))))
    = Ok (Str trained)
    /\ at_ "combined"
         (snd (hd (0%Z, [])
                 (rows (Samples.frame_of
                          (FineTune.holdout MoreSamples.many_transactions)))))
       = Str held
    /\ trained <> held.
Proof.
  apply (holdout_prompt_is_not_training_prompt MoreSamples.Series_str
           Samples.two_transactions
           (Samples.frame_of
              (Transactions.combine MoreSamples.Series_str
                 Samples.two_transactions))
           MoreSamples.many_transactions
           (Samples.frame_of (FineTune.holdout MoreSamples.many_transactions))
           0%Z _ 101%Z _ (lit "ACME Ltd") (lit "Bricks"));
    try reflexivity; left; reflexivity.
Defined.

Lemma shuffle_keeps_every_example_witness :
  exists out,
    FineTune.shuffled MoreSamples.randint MoreSamples.sort_index
      {| columns := ["prompt"; "class_id"];
         rows := [ (0%Z, [("prompt", Str (lit "a")); ("class_id", Str (lit " 0"))]);
                   (1%Z, [("prompt", Str (lit "b")); ("class_id", Str (lit " 1"))]) ] |}
    = Ok out
    /\ map fst (rows out) = [1%Z; 2%Z]
    /\ Permutation (map (fun jr => Derived.pair_of (snd jr)) (rows out))
         [(Str (lit "a"), Str (lit " 0")); (Str (lit "b"), Str (lit " 1"))].
Proof.
  eexists. split; [reflexivity|]. split; [reflexivity|].
  destruct (shuffle_keeps_every_example MoreSamples.randint
              MoreSamples.sort_index sample_sort_index_perm
              {| columns := ["prompt"; "class_id"];
                 rows := [ (0%Z, [("prompt", Str (lit "a"));
                                  ("class_id", Str (lit " 0"))]);
                           (1%Z, [("prompt", Str (lit "b"));
                                  ("class_id", Str (lit " 1"))]) ] |}
              _ ltac:(discriminate) eq_refl) as (_ & _ & H).
  exact H.
Defined.

Lemma prepare_one_example_per_row_witness :
  len (Samples.frame_of
         (FineTune.prepare Samples.repr_float MoreSamples.set_list
            MoreSamples.randint MoreSamples.sort_index MoreSamples.join_order
            MoreSamples.labelled))
  = 3%nat.
Proof.
  destruct (prepare_one_example_per_row Samples.repr_float MoreSamples.set_list
              MoreSamples.randint MoreSamples.sort_index MoreSamples.join_order
              sample_sort_index_perm (fun rs => Permutation_refl rs)
              sample_set_list_In sample_set_list_NoDup
              MoreSamples.labelled
              (Samples.frame_of
                 (FineTune.prepare Samples.repr_float MoreSamples.set_list
                    MoreSamples.randint MoreSamples.sort_index
                    MoreSamples.join_order MoreSamples.labelled))
              ltac:(discriminate)
              ltac:(cbn; intuition discriminate)
              ltac:(cbn; intuition discriminate)
              eq_refl) as (_ & Hlen & _).
  exact Hlen.
Defined.

Lemma prepare_completion_tells_class_witness :
  exists ex1 ex2 : cell * cell,
    fst ex1 = Str (lit "Supplier: ACME Ltd; Description: Bricks"
                   ++ FineTune.separator)
    /\ fst ex2 = Str (lit "Supplier: Roof Co; Description: Slates"
                      ++ FineTune.separator)
    /\ snd ex1 = snd ex2.
Proof.
  destruct (prepare_completion_tells_class Samples.repr_float
              MoreSamples.set_list MoreSamples.randint MoreSamples.sort_index
              MoreSamples.join_order
              sample_sort_index_perm (fun rs => Permutation_refl rs)
              sample_set_list_In sample_set_list_NoDup
              MoreSamples.labelled
              (Samples.frame_of
                 (FineTune.prepare Samples.repr_float MoreSamples.set_list
                    MoreSamples.randint MoreSamples.sort_index
                    MoreSamples.join_order MoreSamples.labelled))
              0%Z
              [("Supplier", Str (lit "ACME Ltd"));
               ("Description", Str (lit "Bricks"));
               ("Classification", Str (lit "Building Improvement"));
               ("combined", Str (lit "Supplier: ACME Ltd; Description: Bricks"))]
              2%Z
              [("Supplier", Str (lit "Roof Co"));
               ("Description", Str (lit "Slates"));
               ("Classification", Str (lit "Building Improvement"));
               ("combined", Str (lit "Supplier: Roof Co; Description: Slates"))]
              ltac:(discriminate)
              ltac:(cbn; intuition discriminate)
              ltac:(cbn; intuition discriminate)
              eq_refl
              ltac:(left; reflexivity)
              ltac:(right; right; left; reflexivity))
    as (ex1 & ex2 & _ & _ & (s1 & Hs1 & Hp1) & (s2 & Hs2 & Hp2) & Hiff).
  exists ex1, ex2. injection Hs1 as <-. injection Hs2 as <-.
  split; [exact Hp1|]. split; [exact Hp2|]. now apply Hiff.
Defined.
